(** * The request handler layer of [server/routes.ts]

    A shallow embedding of [registerRoutes]: every route handler is a
    function from the store's state to a response and the store's next
    state.  An [await] of a storage operation either resolves or rejects;
    a rejection unwinds to the handler's [catch] block, and whatever the
    store had already written stays written.

    The storage collaborator ([./storage]) and the validation schemas
    ([@shared/schema]) are imported by the source, not defined in it.  The
    handlers are therefore written against a [Storage] interface and a
    [Schemas] interface; a reference in-memory store, modelled from the
    specification's storage contract, instantiates the first. *)

From Stdlib Require Import ZArith Lia.
From stdpp Require Import base option list strings pretty sorting gmap.

Local Open Scope string_scope.
Local Open Scope Z_scope.

(** ** Values that cross the HTTP boundary *)

(** A JSON value as the handler sees it after body parsing; a property
    that is not there reads as [JsUndefined]. *)
Unset Elimination Schemes.
Inductive JsValue : Type :=
| JsUndefined
| JsNull
| JsBool (b : bool)
| JsNumber (n : Z)
| JsString (s : string)
| JsArray (items : list JsValue)
| JsObject (fields : list (string * JsValue)).
Set Elimination Schemes.

(** JavaScript truthiness, as used by [!x], [x || y] and [if (x)]. *)
Definition truthy (v : JsValue) : bool :=
  match v with
  | JsUndefined | JsNull => false
  | JsBool b => b
  | JsNumber n => negb (n =? 0)
  | JsString s => negb (String.eqb s "")
  | JsArray _ | JsObject _ => true
  end.

(** [req.body] is the object produced by the JSON body parser. *)
Definition Body : Type := list (string * JsValue).

Fixpoint prop (key : string) (body : Body) : JsValue :=
  match body with
  | [] => JsUndefined
  | (k, v) :: rest => if String.eqb k key then v else prop key rest
  end.

(** ** Entities (shapes of [@shared/schema]) *)

(** The source imports its entity types from [@shared/schema]; section 3
    of the specification lists what each one holds.  Identifiers are
    strings, as [req.params.id] and [DEMO_USER_ID] are. *)

(** Modelled from the spec: the [User] type of [@shared/schema]: identity,
    display name, credential, cumulative points, nullable last check-in. *)
Record User : Type := mkUser {
  user_id : string;
  username : string;
  password : string;
  points : Z;
  lastCheckin : option Z  (* a Date as milliseconds since the epoch, or null *)
}.

(** Modelled from the spec: the credentials [createUser] takes. *)
Record InsertUser : Type := mkInsertUser {
  iu_username : string;
  iu_password : string
}.

(** Modelled from the spec: the [Message] type of [@shared/schema]:
    content plus owning user reference. *)
Record Message : Type := mkMessage {
  message_id : string;
  message_userId : string;
  content : string
}.

(** Modelled from the spec: what [insertMessageSchema] parses to. *)
Record InsertMessage : Type := mkInsertMessage {
  im_content : string
}.

(** Modelled from the spec: the [Notification] type of [@shared/schema]:
    title, body, read flag, owning user reference. *)
Record Notification : Type := mkNotification {
  notification_id : string;
  notification_userId : string;
  title : string;
  message : string;
  read : bool
}.

(** Modelled from the spec: what [insertNotificationSchema] parses to;
    the check-in handler builds one from a title and a message. *)
Record InsertNotification : Type := mkInsertNotification {
  in_title : string;
  in_message : string
}.

(** Modelled from the spec: the [Settings] type of [@shared/schema]:
    theme, two notification toggles, owning user reference. *)
Record Settings : Type := mkSettings {
  settings_userId : string;
  theme : string;
  notifications : bool;
  emailNotifications : bool
}.

(** Modelled from the spec: what [createSettings] takes; the handlers
    build it from a theme and the two toggles. *)
Record InsertSettings : Type := mkInsertSettings {
  is_theme : string;
  is_notifications : bool;
  is_emailNotifications : bool
}.

(** Modelled from the spec: the result of
    [insertSettingsSchema.partial().parse], any subset of the settings
    fields; [None] stands for [undefined]. *)
Record PartialSettings : Type := mkPartialSettings {
  ps_theme : option string;
  ps_notifications : option bool;
  ps_emailNotifications : option bool
}.

(** Modelled from the spec: the referral stats of a referring user. *)
Record ReferralStats : Type := mkReferralStats {
  stats_totalReferrals : nat;
  stats_completedReferrals : nat
}.


(** ** Responses *)

Inductive Payload : Type :=
| JError (error : string)              (* { error: "..." } *)
| JSuccess                             (* { success: true } *)
| JUser (u : User)
| JUsers (us : list User)
| JMessage (m : Message)
| JMessages (ms : list Message)
| JNotification (n : Notification)
| JNotifications (ns : list Notification)
| JSettings (st : Settings)
| JStats (st : ReferralStats).

Record Response : Type := mkResponse {
  status : Z;
  payload : Payload
}.

(** [res.json(x)] answers with status 200. *)
Definition json (p : Payload) : Response := mkResponse 200 p.

(** [res.status(code).json({ error: msg })]. *)
Definition fail (code : Z) (msg : string) : Response := mkResponse code (JError msg).

(** ** Awaiting, throwing and catching *)

(** What can be thrown inside a handler's [try] block. *)
Inductive Exn : Type :=
| ZodError         (* a schema's [parse] rejected the body *)
| StorageFailure   (* an awaited storage operation rejected *)
| TypeError.       (* a property read on [undefined] *)

Inductive Outcome (A : Type) : Type :=
| Resolved (a : A)
| Rejected (e : Exn).
Arguments Resolved {A} a.
Arguments Rejected {A} e.

Section Async.
Context {S : Type}.

(** A storage operation: it resolves with a value or rejects, and in
    both cases leaves the store in some state. *)
Definition Store (A : Type) : Type := S -> option A * S.

(** A computation inside an [async] function. *)
Definition Async (A : Type) : Type := S -> Outcome A * S.

Definition ret {A} (a : A) : Async A := fun s => (Resolved a, s).

Definition throw {A} (e : Exn) : Async A := fun s => (Rejected e, s).

Definition bind {A B} (m : Async A) (k : A -> Async B) : Async B :=
  fun s =>
    match m s with
    | (Resolved a, s') => k a s'
    | (Rejected e, s') => (Rejected e, s')
    end.

Definition await {A} (op : Store A) : Async A :=
  fun s =>
    match op s with
    | (Some a, s') => (Resolved a, s')
    | (None, s') => (Rejected StorageFailure, s')
    end.

(** [schema.parse(req.body)]: the parsed value, or a thrown ZodError. *)
Definition parse {A} (parsed : option A) : Async A :=
  match parsed with
  | Some a => ret a
  | None => throw ZodError
  end.

(** [try { body } catch (error) { handler }], for a handler that always
    answers. *)
Definition tryCatch {A} (body : Async A) (handler : Exn -> A) : S -> A * S :=
  fun s =>
    match body s with
    | (Resolved a, s') => (a, s')
    | (Rejected e, s') => (handler e, s')
    end.
End Async.

Arguments Store : clear implicits.
Arguments Async : clear implicits.

Notation "'let*' x ':=' m 'in' k" := (bind m (fun x => k))
  (at level 10, x pattern, m at level 100, k at level 200).

(** A route handler. *)
Definition Handler (S : Type) : Type := S -> Response * S.

(** ** The collaborators *)

(** The operations the handlers call on [storage]. *)
Record Storage (S : Type) : Type := mkStorage {
  getAllUsers : Store S (list User);
  createUser : InsertUser -> Store S User;
  getMessagesByUserId : string -> Store S (list Message);
  createMessage : InsertMessage -> string -> Store S Message;
  updateUserPoints : string -> Z -> Store S User;
  updateUserCheckin : string -> Store S User;
  createNotification : InsertNotification -> string -> Store S Notification;
  getNotificationsByUserId : string -> Store S (list Notification);
  markNotificationAsRead : string -> Store S (option Notification);
  markAllNotificationsAsRead : string -> Store S unit;
  deleteNotification : string -> Store S bool;
  getLeaderboard : Z -> Z -> Store S (list User);
  getSettingsByUserId : string -> Store S (option Settings);
  createSettings : InsertSettings -> string -> Store S Settings;
  updateSettings : string -> PartialSettings -> Store S Settings;
  getReferralStats : string -> Store S ReferralStats;
  completeReferral : JsValue -> JsValue -> Store S bool
}.
Arguments getAllUsers {S}.
Arguments createUser {S}.
Arguments getMessagesByUserId {S}.
Arguments createMessage {S}.
Arguments updateUserPoints {S}.
Arguments updateUserCheckin {S}.
Arguments createNotification {S}.
Arguments getNotificationsByUserId {S}.
Arguments markNotificationAsRead {S}.
Arguments markAllNotificationsAsRead {S}.
Arguments deleteNotification {S}.
Arguments getLeaderboard {S}.
Arguments getSettingsByUserId {S}.
Arguments createSettings {S}.
Arguments updateSettings {S}.
Arguments getReferralStats {S}.
Arguments completeReferral {S}.

(** The three [parse] functions of the imported schemas; [None] is a
    thrown validation error. *)
Record Schemas : Type := mkSchemas {
  insertMessageSchema : Body -> option InsertMessage;
  insertNotificationSchema : Body -> option InsertNotification;
  insertSettingsSchema_partial : Body -> option PartialSettings
}.

(** ** Local calendar dates of a [Date] *)

Module Calendar.
Definition msPerDay : Z := 86400000.
Definition msPerMinute : Z := 60000.

(** The civil date of a day number counted from 1 January 1970, in the
    proleptic Gregorian calendar that [Date] uses: year, month (1..12)
    and day of the month (1..31). *)
Definition civilFromDays (day : Z) : Z * Z * Z :=
  let z := day + 719468 in
  let era := z / 146097 in
  let doe := z - era * 146097 in
  let yoe := (doe - doe / 1460 + doe / 36524 - doe / 146096) / 365 in
  let doy := doe - (365 * yoe + yoe / 4 - yoe / 100) in
  let mp := (5 * doy + 2) / 153 in
  let d := doy - (153 * mp + 2) / 5 + 1 in
  let m := if mp <? 10 then mp + 3 else mp - 9 in
  let y := yoe + era * 400 + (if m <=? 2 then 1 else 0) in
  (y, m, d).

(** The day number of a civil date: the way back from [civilFromDays]. *)
Definition daysFromCivil (date : Z * Z * Z) : Z :=
  let '(y, m, d) := date in
  let y' := y - (if m <=? 2 then 1 else 0) in
  let era := y' / 400 in
  let yoe := y' - era * 400 in
  let mp := if 2 <? m then m - 3 else m + 9 in
  let doy := (153 * mp + 2) / 5 + d - 1 in
  let doe := yoe * 365 + yoe / 4 - yoe / 100 + doy in
  era * 146097 + doe - 719468.

Section LocalTime.
(** The host's offset from UTC, in milliseconds, at a given instant. *)
Variable localTZA : Z -> Z.

Definition localDay (t : Z) : Z := (t + localTZA t) / msPerDay.

Definition getFullYear (t : Z) : Z := (civilFromDays (localDay t)).1.1.
Definition getMonth (t : Z) : Z := (civilFromDays (localDay t)).1.2 - 1.
Definition getDate (t : Z) : Z := (civilFromDays (localDay t)).2.

(** The [isSameDay] expression of the check-in handler. *)
Definition isSameDay (lastCheckin today : Z) : bool :=
  (getDate lastCheckin =? getDate today)
  && (getMonth lastCheckin =? getMonth today)
  && (getFullYear lastCheckin =? getFullYear today).
End LocalTime.

(** A host running on UTC. *)
Definition utc : Z -> Z := fun _ => 0.
End Calendar.

(** The requests the route table answers.  [today] is the value of
    [new Date()] when the check-in handler runs; [parsedPage] is
    [parseInt(req.query.page)], with [None] for [NaN]. *)
Inductive Request : Type :=
| GET_messages
| POST_messages (body : Body)
| POST_checkin (today : Z)
| GET_user
| GET_leaderboard (parsedPage : option Z)
| GET_notifications
| POST_notifications (body : Body)
| PATCH_notification_read (id : string)
| POST_notifications_mark_all_read
| DELETE_notification (id : string)
| GET_settings
| PATCH_settings (body : Body)
| GET_referral
| POST_referral_complete (body : Body).


(** ** The handlers of [registerRoutes] *)

(** Mock user ID for demo purposes; no handler reads it. *)
Definition DEMO_USER_ID : string := "default-user-id".

(** The fixed credentials of the demo user. *)
Definition demoCredentials : InsertUser := mkInsertUser "DemoUser" "demo".

Section Routes.
Context {S : Type}.
Variable storage : Storage S.
Variable schemas : Schemas.
(** The host's time zone, read by [getDate], [getMonth], [getFullYear]. *)
Variable localTZA : Z -> Z.

(** Helper to get or create demo user. *)
Definition getDemoUser : Async S User :=
  let* users := await (getAllUsers storage) in
  if (length users =? 0)%nat then
    await (createUser storage demoCredentials)
  else
    match users !! (length users - 1)%nat with
    | Some user => ret user
    | None => throw TypeError
    end.

(** *** Messages *)

Definition getMessages_for (user : User) : Async S Response :=
  let* messages := await (getMessagesByUserId storage (user_id user)) in
  ret (json (JMessages messages)).

Definition getMessages_try : Async S Response :=
  let* user := getDemoUser in getMessages_for user.

Definition getMessages : Handler S :=
  tryCatch getMessages_try (fun _ => fail 500 "Failed to fetch messages").

Definition postMessages_for (body : Body) (user : User) : Async S Response :=
  let* parsed := parse (insertMessageSchema schemas body) in
  let* message := await (createMessage storage parsed (user_id user)) in
  (* Award points for sending a message *)
  let* _ := await (updateUserPoints storage (user_id user) 1) in
  ret (json (JMessage message)).

Definition postMessages_try (body : Body) : Async S Response :=
  let* user := getDemoUser in postMessages_for body user.

Definition postMessages (body : Body) : Handler S :=
  tryCatch (postMessages_try body) (fun _ => fail 400 "Invalid message data").

(** *** Check-in *)

Definition checkinNotification : InsertNotification :=
  mkInsertNotification "Daily Check-in Complete!"
    "You've earned 10 points! Come back tomorrow for more.".

(** [if (user.lastCheckin) { ... isSameDay ... }]: a stored Date is
    truthy, [null] is not. *)
Definition alreadyCheckedIn (user : User) (today : Z) : bool :=
  match lastCheckin user with
  | Some last => Calendar.isSameDay localTZA last today
  | None => false
  end.

Definition postCheckin_for (today : Z) (user : User) : Async S Response :=
  if alreadyCheckedIn user today then
    ret (fail 400 "Already checked in today")
  else
    (* Update check-in and award points *)
    let* updatedUser := await (updateUserCheckin storage (user_id user)) in
    (* Create notification *)
    let* _ := await (createNotification storage checkinNotification (user_id user)) in
    ret (json (JUser updatedUser)).

(** [today] is the value of [new Date()] read by the handler. *)
Definition postCheckin_try (today : Z) : Async S Response :=
  let* user := getDemoUser in postCheckin_for today user.

Definition postCheckin (today : Z) : Handler S :=
  tryCatch (postCheckin_try today) (fun _ => fail 500 "Failed to check in").

(** *** User info *)

Definition getUser_for (user : User) : Async S Response :=
  ret (json (JUser user)).

Definition getUser_try : Async S Response :=
  let* user := getDemoUser in getUser_for user.

Definition getUser : Handler S :=
  tryCatch getUser_try (fun _ => fail 500 "Failed to fetch user").

(** *** Leaderboard *)

(** [parseInt(req.query.page) || 0]; [None] is [NaN]. *)
Definition pageOr0 (parsedPage : option Z) : Z :=
  match parsedPage with
  | Some n => if n =? 0 then 0 else n
  | None => 0
  end.

Definition getLeaderboard_try (parsedPage : option Z) : Async S Response :=
  let page := pageOr0 parsedPage in
  let limit := 10 in
  let* leaderboard := await (getLeaderboard storage page limit) in
  ret (json (JUsers leaderboard)).

Definition getLeaderboardPage (parsedPage : option Z) : Handler S :=
  tryCatch (getLeaderboard_try parsedPage)
    (fun _ => fail 500 "Failed to fetch leaderboard").

(** *** Notifications *)

Definition getNotifications_for (user : User) : Async S Response :=
  let* notifications := await (getNotificationsByUserId storage (user_id user)) in
  ret (json (JNotifications notifications)).

Definition getNotifications_try : Async S Response :=
  let* user := getDemoUser in getNotifications_for user.

Definition getNotifications : Handler S :=
  tryCatch getNotifications_try (fun _ => fail 500 "Failed to fetch notifications").

Definition postNotifications_for (body : Body) (user : User) : Async S Response :=
  let* parsed := parse (insertNotificationSchema schemas body) in
  let* notification := await (createNotification storage parsed (user_id user)) in
  ret (json (JNotification notification)).

Definition postNotifications_try (body : Body) : Async S Response :=
  let* user := getDemoUser in postNotifications_for body user.

Definition postNotifications (body : Body) : Handler S :=
  tryCatch (postNotifications_try body) (fun _ => fail 400 "Invalid notification data").

Definition patchNotificationRead_try (id : string) : Async S Response :=
  let* notification := await (markNotificationAsRead storage id) in
  match notification with
  | None => ret (fail 404 "Notification not found")
  | Some n => ret (json (JNotification n))
  end.

Definition patchNotificationRead (id : string) : Handler S :=
  tryCatch (patchNotificationRead_try id)
    (fun _ => fail 500 "Failed to mark notification as read").

Definition postMarkAllRead_for (user : User) : Async S Response :=
  let* _ := await (markAllNotificationsAsRead storage (user_id user)) in
  ret (json JSuccess).

Definition postMarkAllRead_try : Async S Response :=
  let* user := getDemoUser in postMarkAllRead_for user.

Definition postMarkAllRead : Handler S :=
  tryCatch postMarkAllRead_try
    (fun _ => fail 500 "Failed to mark all notifications as read").

Definition deleteNotificationById_try (id : string) : Async S Response :=
  let* deleted := await (deleteNotification storage id) in
  if negb deleted then ret (fail 404 "Notification not found")
  else ret (json JSuccess).

Definition deleteNotificationById (id : string) : Handler S :=
  tryCatch (deleteNotificationById_try id)
    (fun _ => fail 500 "Failed to delete notification").

(** *** Settings *)

Definition defaultSettings : InsertSettings :=
  mkInsertSettings "light" true false.

Definition getSettings_for (user : User) : Async S Response :=
  let* settings := await (getSettingsByUserId storage (user_id user)) in
  (* Create default settings if they don't exist *)
  let* settings :=
    match settings with
    | None => await (createSettings storage defaultSettings (user_id user))
    | Some st => ret st
    end in
  ret (json (JSettings settings)).

Definition getSettings_try : Async S Response :=
  let* user := getDemoUser in getSettings_for user.

Definition getSettings : Handler S :=
  tryCatch getSettings_try (fun _ => fail 500 "Failed to fetch settings").

(** [parsed.theme || "light"]: an absent and an empty theme are both
    falsy. *)
Definition themeOrLight (t : option string) : string :=
  match t with
  | Some s => if String.eqb s "" then "light" else s
  | None => "light"
  end.

(** [x ?? d]. *)
Definition nullish {A} (x : option A) (d : A) : A :=
  match x with
  | Some a => a
  | None => d
  end.

Definition settingsToCreate (parsed : PartialSettings) : InsertSettings :=
  mkInsertSettings
    (themeOrLight (ps_theme parsed))
    (nullish (ps_notifications parsed) true)
    (nullish (ps_emailNotifications parsed) false).

Definition patchSettings_for (body : Body) (user : User) : Async S Response :=
  let* parsed := parse (insertSettingsSchema_partial schemas body) in
  let* settings := await (getSettingsByUserId storage (user_id user)) in
  let* settings :=
    match settings with
    | None =>
        (* Create if doesn't exist *)
        await (createSettings storage (settingsToCreate parsed) (user_id user))
    | Some _ =>
        (* Update existing *)
        await (updateSettings storage (user_id user) parsed)
    end in
  ret (json (JSettings settings)).

Definition patchSettings_try (body : Body) : Async S Response :=
  let* user := getDemoUser in patchSettings_for body user.

Definition patchSettings (body : Body) : Handler S :=
  tryCatch (patchSettings_try body) (fun _ => fail 400 "Invalid settings data").

(** *** Referrals *)

Definition getReferral_for (user : User) : Async S Response :=
  let* stats := await (getReferralStats storage (user_id user)) in
  ret (json (JStats stats)).

Definition getReferral_try : Async S Response :=
  let* user := getDemoUser in getReferral_for user.

Definition getReferral : Handler S :=
  tryCatch getReferral_try (fun _ => fail 500 "Failed to fetch referral stats").

Definition postReferralComplete_try (body : Body) : Async S Response :=
  let referralCode := prop "referralCode" body in
  let userId := prop "userId" body in
  if negb (truthy referralCode) || negb (truthy userId) then
    ret (fail 400 "Missing referral code or user ID")
  else
    let* success := await (completeReferral storage referralCode userId) in
    if negb success then ret (fail 404 "Invalid referral code")
    else ret (json JSuccess).

Definition postReferralComplete (body : Body) : Handler S :=
  tryCatch (postReferralComplete_try body)
    (fun _ => fail 500 "Failed to complete referral").

(** *** The route table *)

Definition route (r : Request) : Handler S :=
  match r with
  | GET_messages => getMessages
  | POST_messages body => postMessages body
  | POST_checkin today => postCheckin today
  | GET_user => getUser
  | GET_leaderboard page => getLeaderboardPage page
  | GET_notifications => getNotifications
  | POST_notifications body => postNotifications body
  | PATCH_notification_read id => patchNotificationRead id
  | POST_notifications_mark_all_read => postMarkAllRead
  | DELETE_notification id => deleteNotificationById id
  | GET_settings => getSettings
  | PATCH_settings body => patchSettings body
  | GET_referral => getReferral
  | POST_referral_complete body => postReferralComplete body
  end.

(** The [try] block of each handler ... *)
Definition tryBlock (r : Request) : Async S Response :=
  match r with
  | GET_messages => getMessages_try
  | POST_messages body => postMessages_try body
  | POST_checkin today => postCheckin_try today
  | GET_user => getUser_try
  | GET_leaderboard page => getLeaderboard_try page
  | GET_notifications => getNotifications_try
  | POST_notifications body => postNotifications_try body
  | PATCH_notification_read id => patchNotificationRead_try id
  | POST_notifications_mark_all_read => postMarkAllRead_try
  | DELETE_notification id => deleteNotificationById_try id
  | GET_settings => getSettings_try
  | PATCH_settings body => patchSettings_try body
  | GET_referral => getReferral_try
  | POST_referral_complete body => postReferralComplete_try body
  end.

(** ... and the answer of its [catch] block. *)
Definition catchResponse (r : Request) : Response :=
  match r with
  | GET_messages => fail 500 "Failed to fetch messages"
  | POST_messages _ => fail 400 "Invalid message data"
  | POST_checkin _ => fail 500 "Failed to check in"
  | GET_user => fail 500 "Failed to fetch user"
  | GET_leaderboard _ => fail 500 "Failed to fetch leaderboard"
  | GET_notifications => fail 500 "Failed to fetch notifications"
  | POST_notifications _ => fail 400 "Invalid notification data"
  | PATCH_notification_read _ => fail 500 "Failed to mark notification as read"
  | POST_notifications_mark_all_read => fail 500 "Failed to mark all notifications as read"
  | DELETE_notification _ => fail 500 "Failed to delete notification"
  | GET_settings => fail 500 "Failed to fetch settings"
  | PATCH_settings _ => fail 400 "Invalid settings data"
  | GET_referral => fail 500 "Failed to fetch referral stats"
  | POST_referral_complete _ => fail 500 "Failed to complete referral"
  end.

(** The handlers that validate [req.body] against a schema. *)
Definition validatesBody (r : Request) : bool :=
  match r with
  | POST_messages _ | POST_notifications _ | PATCH_settings _ => true
  | _ => false
  end.

(** What each handler does once [getDemoUser] has resolved; [None] for
    the handlers that never call it. *)
Definition forUser (r : Request) : option (User -> Async S Response) :=
  match r with
  | GET_messages => Some getMessages_for
  | POST_messages body => Some (postMessages_for body)
  | POST_checkin today => Some (postCheckin_for today)
  | GET_user => Some getUser_for
  | GET_notifications => Some getNotifications_for
  | POST_notifications body => Some (postNotifications_for body)
  | POST_notifications_mark_all_read => Some postMarkAllRead_for
  | GET_settings => Some getSettings_for
  | PATCH_settings body => Some (patchSettings_for body)
  | GET_referral => Some getReferral_for
  | GET_leaderboard _ | PATCH_notification_read _
  | DELETE_notification _ | POST_referral_complete _ => None
  end.

(** Whether [parse] threw. *)
Definition rejected {A} (parsed : option A) : bool :=
  match parsed with
  | None => true
  | Some _ => false
  end.

(** Whether the handler's schema rejects the request's body. *)
Definition schemaRejects (r : Request) : bool :=
  match r with
  | POST_messages body => rejected (insertMessageSchema schemas body)
  | POST_notifications body => rejected (insertNotificationSchema schemas body)
  | PATCH_settings body => rejected (insertSettingsSchema_partial schemas body)
  | _ => false
  end.

(** Whether the body lacks a usable referral code or user id: the guard
    [!referralCode || !userId]. *)
Definition missingReferralFields (body : Body) : bool :=
  negb (truthy (prop "referralCode" body)) || negb (truthy (prop "userId" body)).
End Routes.

(** ** A reference store *)

Module MemStorage.
(** Modelled from the spec: a referral, the association between a
    referring user and a code, with its completion state. *)
Record Referral : Type := mkReferral {
  referral_code : string;
  referral_referrerId : string;
  referral_completedFor : option string
}.

(** Modelled from the spec: the state behind the storage collaborator
    ([./storage], imported by the source).  Section 3 names the entities
    it owns; settings are one-to-one with users, so they are keyed by
    the owning user's identifier.  Users are kept in creation order. *)
Record State : Type := mkState {
  db_users : list User;
  db_messages : list Message;
  db_notifications : list Notification;
  db_settings : gmap string Settings;
  db_referrals : list Referral;
  db_nextId : N;     (* source of fresh identifiers *)
  db_clock : Z       (* the host clock, milliseconds since the epoch *)
}.

Definition empty : State := mkState [] [] [] ∅ [] 0%N 0.

Definition freshId (s : State) : string := pretty (db_nextId s).

Definition setUsers (us : list User) (s : State) : State :=
  mkState us (db_messages s) (db_notifications s) (db_settings s)
    (db_referrals s) (db_nextId s) (db_clock s).
Definition setMessages (ms : list Message) (s : State) : State :=
  mkState (db_users s) ms (db_notifications s) (db_settings s)
    (db_referrals s) (db_nextId s) (db_clock s).
Definition setNotifications (ns : list Notification) (s : State) : State :=
  mkState (db_users s) (db_messages s) ns (db_settings s)
    (db_referrals s) (db_nextId s) (db_clock s).
Definition setSettings (m : gmap string Settings) (s : State) : State :=
  mkState (db_users s) (db_messages s) (db_notifications s) m
    (db_referrals s) (db_nextId s) (db_clock s).
Definition setReferrals (rs : list Referral) (s : State) : State :=
  mkState (db_users s) (db_messages s) (db_notifications s) (db_settings s)
    rs (db_nextId s) (db_clock s).
Definition bumpId (s : State) : State :=
  mkState (db_users s) (db_messages s) (db_notifications s) (db_settings s)
    (db_referrals s) (N.succ (db_nextId s)) (db_clock s).
(** Time passing between two requests. *)
Definition setClock (t : Z) (s : State) : State :=
  mkState (db_users s) (db_messages s) (db_notifications s) (db_settings s)
    (db_referrals s) (db_nextId s) t.

Definition hasId (uid : string) (u : User) : bool := String.eqb (user_id u) uid.
Definition ownedBy (uid : string) (m : Message) : bool :=
  String.eqb (message_userId m) uid.
Definition sentTo (uid : string) (n : Notification) : bool :=
  String.eqb (notification_userId n) uid.
Definition isNotification (id : string) (n : Notification) : bool :=
  String.eqb (notification_id n) id.

(** Applies [f] to the user record stored under [uid]. *)
Definition alterUser (f : User -> User) (uid : string) (us : list User) : list User :=
  (fun u => if hasId uid u then f u else u) <$> us.

(** Modelled from the spec: a point award adds [delta] to the total. *)
Definition addPoints (delta : Z) (u : User) : User :=
  mkUser (user_id u) (username u) (password u) (points u + delta) (lastCheckin u).

(** Modelled from the spec: the points [updateUserCheckin] awards; the
    notification of the check-in handler announces 10. *)
Definition checkinPoints : Z := 10.

(** Modelled from the spec: a check-in stamps the user with the time and
    awards the points. *)
Definition checkedInAt (t : Z) (u : User) : User :=
  mkUser (user_id u) (username u) (password u) (points u + checkinPoints) (Some t).

Definition markRead (n : Notification) : Notification :=
  mkNotification (notification_id n) (notification_userId n) (title n) (message n) true.

(** Modelled from the spec: a partial update; a supplied field replaces
    the stored one, the others stay. *)
Definition mergeSettings (st : Settings) (p : PartialSettings) : Settings :=
  mkSettings (settings_userId st)
    (default (theme st) (ps_theme p))
    (default (notifications st) (ps_notifications p))
    (default (emailNotifications st) (ps_emailNotifications p)).

Definition byPointsDesc (a b : User) : Prop := points b <= points a.

#[global] Instance byPointsDesc_dec a b : Decision (byPointsDesc a b).
Proof. unfold byPointsDesc. apply _. Defined.

(** The storage contract of section 6, one definition per operation.
    An operation that must return a record rejects when its user (or
    settings record) does not exist. *)

(** Modelled from the spec: [getAllUsers() -> User[]] of [./storage]. *)
Definition mem_getAllUsers : Store State (list User) :=
  fun s => (Some (db_users s), s).

(** Modelled from the spec: [createUser(credentials) -> User]: a new user
    has no points and no check-in, and is the most recently created one.
    *)
Definition mem_createUser (c : InsertUser) : Store State User :=
  fun s =>
    let u := mkUser (freshId s) (iu_username c) (iu_password c) 0 None in
    (Some u, bumpId (setUsers (db_users s ++ [u]) s)).

(** Modelled from the spec: [getMessagesByUserId(userId) -> Message[]]. *)
Definition mem_getMessagesByUserId (uid : string) : Store State (list Message) :=
  fun s => (Some (filter (fun m => ownedBy uid m) (db_messages s)), s).

(** Modelled from the spec: [createMessage(data, userId) -> Message]. *)
Definition mem_createMessage (d : InsertMessage) (uid : string) : Store State Message :=
  fun s =>
    let m := mkMessage (freshId s) uid (im_content d) in
    (Some m, bumpId (setMessages (db_messages s ++ [m]) s)).

(** Modelled from the spec: the update of one user record that
    [updateUserPoints] and [updateUserCheckin] share. *)
Definition mem_updateUser (f : User -> User) (uid : string) : Store State User :=
  fun s =>
    let us := alterUser f uid (db_users s) in
    match List.find (hasId uid) us with
    | Some u => (Some u, setUsers us s)
    | None => (None, s)
    end.

(** Modelled from the spec: [updateUserPoints(userId, delta) -> User]. *)
Definition mem_updateUserPoints (uid : string) (delta : Z) : Store State User :=
  mem_updateUser (addPoints delta) uid.

(** Modelled from the spec: [updateUserCheckin(userId) -> User], which
    also awards points internally. *)
Definition mem_updateUserCheckin (uid : string) : Store State User :=
  fun s => mem_updateUser (checkedInAt (db_clock s)) uid s.

(** Modelled from the spec: [createNotification(data, userId) ->
    Notification]; a new notification is unread. *)
Definition mem_createNotification (d : InsertNotification) (uid : string)
  : Store State Notification :=
  fun s =>
    let n := mkNotification (freshId s) uid (in_title d) (in_message d) false in
    (Some n, bumpId (setNotifications (db_notifications s ++ [n]) s)).

(** Modelled from the spec: [getNotificationsByUserId(userId) ->
    Notification[]]. *)
Definition mem_getNotificationsByUserId (uid : string) : Store State (list Notification) :=
  fun s => (Some (filter (fun n => sentTo uid n) (db_notifications s)), s).

(** Modelled from the spec: [markNotificationAsRead(id) -> Notification |
    null]. *)
Definition mem_markNotificationAsRead (id : string) : Store State (option Notification) :=
  fun s =>
    match List.find (isNotification id) (db_notifications s) with
    | Some n =>
        let ns := (fun x => if isNotification id x then markRead x else x)
                    <$> db_notifications s in
        (Some (Some (markRead n)), setNotifications ns s)
    | None => (Some None, s)
    end.

(** Modelled from the spec: [markAllNotificationsAsRead(userId) -> void].
    *)
Definition mem_markAllNotificationsAsRead (uid : string) : Store State unit :=
  fun s =>
    let ns := (fun x => if sentTo uid x then markRead x else x)
                <$> db_notifications s in
    (Some tt, setNotifications ns s).

(** Modelled from the spec: [deleteNotification(id) -> bool], false when
    no record matches. *)
Definition mem_deleteNotification (id : string) : Store State bool :=
  fun s =>
    if existsb (isNotification id) (db_notifications s) then
      (Some true,
       setNotifications (filter (fun n => negb (isNotification id n))
                           (db_notifications s)) s)
    else (Some false, s).

(** Modelled from the spec: [getLeaderboard(page, pageSize) -> User[]],
    page [page] (0-based) of the users ranked by points. *)
Definition mem_getLeaderboard (page limit : Z) : Store State (list User) :=
  fun s =>
    let ranked := merge_sort byPointsDesc (db_users s) in
    (Some (take (Z.to_nat limit) (drop (Z.to_nat (page * limit)) ranked)), s).

(** Modelled from the spec: [getSettingsByUserId(userId) -> Settings |
    null]. *)
Definition mem_getSettingsByUserId (uid : string) : Store State (option Settings) :=
  fun s => (Some (db_settings s !! uid), s).

(** Modelled from the spec: [createSettings(data, userId) -> Settings]. *)
Definition mem_createSettings (d : InsertSettings) (uid : string) : Store State Settings :=
  fun s =>
    let st := mkSettings uid (is_theme d) (is_notifications d) (is_emailNotifications d) in
    (Some st, setSettings (<[uid := st]> (db_settings s)) s).

(** Modelled from the spec: [updateSettings(userId, partialData) ->
    Settings], a partial update. *)
Definition mem_updateSettings (uid : string) (p : PartialSettings) : Store State Settings :=
  fun s =>
    match db_settings s !! uid with
    | Some old =>
        let st := mergeSettings old p in
        (Some st, setSettings (<[uid := st]> (db_settings s)) s)
    | None => (None, s)
    end.

Definition refersFrom (uid : string) (r : Referral) : bool :=
  String.eqb (referral_referrerId r) uid.
Definition isCompleted (r : Referral) : bool :=
  match referral_completedFor r with Some _ => true | None => false end.
Definition hasCode (c : string) (r : Referral) : bool :=
  String.eqb (referral_code r) c.

(** Modelled from the spec: [getReferralStats(userId) -> Stats]. *)
Definition mem_getReferralStats (uid : string) : Store State ReferralStats :=
  fun s =>
    let mine := filter (fun r => refersFrom uid r) (db_referrals s) in
    (Some (mkReferralStats (length mine)
             (length (filter (fun r => isCompleted r) mine))), s).

(** Modelled from the spec: [completeReferral(code, userId) -> bool],
    false when the code is on no referral. *)
Definition mem_completeReferral (code userId : JsValue) : Store State bool :=
  fun s =>
    match code, userId with
    | JsString c, JsString uid =>
        if existsb (hasCode c) (db_referrals s) then
          (Some true,
           setReferrals
             ((fun r => if hasCode c r
                        then mkReferral (referral_code r) (referral_referrerId r) (Some uid)
                        else r) <$> db_referrals s) s)
        else (Some false, s)
    | _, _ => (Some false, s)
    end.

(** Modelled from the spec: the [storage] object the source imports. *)
Definition storage : Storage State :=
  mkStorage State
    mem_getAllUsers mem_createUser mem_getMessagesByUserId mem_createMessage
    mem_updateUserPoints mem_updateUserCheckin mem_createNotification
    mem_getNotificationsByUserId mem_markNotificationAsRead
    mem_markAllNotificationsAsRead mem_deleteNotification mem_getLeaderboard
    mem_getSettingsByUserId mem_createSettings mem_updateSettings
    mem_getReferralStats mem_completeReferral.

(** The same store with a points update that always rejects: a fault
    injected after the message write. *)
Definition storage_pointsDown : Storage State :=
  mkStorage State
    mem_getAllUsers mem_createUser mem_getMessagesByUserId mem_createMessage
    (fun _ _ s => (None, s)) mem_updateUserCheckin mem_createNotification
    mem_getNotificationsByUserId mem_markNotificationAsRead
    mem_markAllNotificationsAsRead mem_deleteNotification mem_getLeaderboard
    mem_getSettingsByUserId mem_createSettings mem_updateSettings
    mem_getReferralStats mem_completeReferral.

(** A store that is unreachable: every operation rejects. *)
Definition storage_down : Storage State :=
  mkStorage State
    (fun s => (None, s)) (fun _ s => (None, s)) (fun _ s => (None, s))
    (fun _ _ s => (None, s)) (fun _ _ s => (None, s)) (fun _ s => (None, s))
    (fun _ _ s => (None, s)) (fun _ s => (None, s)) (fun _ s => (None, s))
    (fun _ s => (None, s)) (fun _ s => (None, s)) (fun _ _ s => (None, s))
    (fun _ s => (None, s)) (fun _ _ s => (None, s)) (fun _ _ s => (None, s))
    (fun _ s => (None, s)) (fun _ _ s => (None, s)).
End MemStorage.

(** ** Sample collaborators and stores *)

Module Samples.
Import MemStorage.

Definition asString (v : JsValue) : option string :=
  match v with JsString s => Some s | _ => None end.

Definition asBool (v : JsValue) : option bool :=
  match v with JsBool b => Some b | _ => None end.

(** An optional field: absent is fine, present must have the type. *)
Definition optional {A} (read : JsValue -> option A) (v : JsValue) : option (option A) :=
  match v with
  | JsUndefined => Some None
  | _ => Some <$> read v
  end.

(** Modelled from the spec: schemas that check the shape of the body
    only ("schema shape validation"), with the fields section 3 gives
    each entity: a message has a content, a notification a title and a
    body, settings a theme and two toggles. *)
Definition shapeSchemas : Schemas :=
  mkSchemas
    (fun body =>
       c ← asString (prop "content" body);
       Some (mkInsertMessage c))
    (fun body =>
       t ← asString (prop "title" body);
       m ← asString (prop "message" body);
       Some (mkInsertNotification t m))
    (fun body =>
       th ← optional asString (prop "theme" body);
       n ← optional asBool (prop "notifications" body);
       e ← optional asBool (prop "emailNotifications" body);
       Some (mkPartialSettings th n e)).

Definition alice : User := mkUser "u-alice" "alice" "pw" 7 None.
Definition bob : User := mkUser "u-bob" "bob" "pw" 3 None.

(** Two users, [bob] created last. *)
Definition twoUsers : State := setUsers [alice; bob] empty.

(** 10 March 2024, 23:59:00 UTC, and the midnight one minute later. *)
Definition t_2359 : Z := 19792 * Calendar.msPerDay + (23 * 60 + 59) * Calendar.msPerMinute.
Definition t_0000 : Z := t_2359 + Calendar.msPerMinute.
(** 11 March 2024, 00:01:00 and 23:58:00 UTC. *)
Definition t_0001 : Z := 19793 * Calendar.msPerDay + Calendar.msPerMinute.
Definition t_2358 : Z := 19793 * Calendar.msPerDay + (23 * 60 + 58) * Calendar.msPerMinute.

Definition carol (last : Z) : User := mkUser "u-carol" "carol" "pw" 10 (Some last).

(** A store whose only user last checked in at [last]; the host clock
    reads [now]. *)
Definition checkedIn (last now : Z) : State :=
  setClock now (setUsers [carol last] empty).

Definition welcome : Notification :=
  mkNotification "n-1" "u-bob" "Welcome" "Hello" false.
Definition reminder : Notification :=
  mkNotification "n-2" "u-bob" "Reminder" "Check in" false.

Definition withNotifications : State :=
  setNotifications [welcome; reminder] twoUsers.

Definition bobSettings : Settings := mkSettings "u-bob" "dark" false true.

Definition withSettings : State :=
  setSettings {[ "u-bob" := bobSettings ]} twoUsers.

Definition withReferral : State :=
  setReferrals [mkReferral "ABC" "u-alice" None] twoUsers.
End Samples.

(** ** Storage operations by name *)

(** One name per operation of [storage]. *)
Inductive Op : Type :=
| OpGetAllUsers
| OpCreateUser
| OpGetMessagesByUserId
| OpCreateMessage
| OpUpdateUserPoints
| OpUpdateUserCheckin
| OpCreateNotification
| OpGetNotificationsByUserId
| OpMarkNotificationAsRead
| OpMarkAllNotificationsAsRead
| OpDeleteNotification
| OpGetLeaderboard
| OpGetSettingsByUserId
| OpCreateSettings
| OpUpdateSettings
| OpGetReferralStats
| OpCompleteReferral.

(** Two storages behave alike on one operation. *)
Definition agreesOn {S : Type} (a b : Storage S) (op : Op) : Prop :=
  match op with
  | OpGetAllUsers => forall s, getAllUsers a s = getAllUsers b s
  | OpCreateUser => forall c s, createUser a c s = createUser b c s
  | OpGetMessagesByUserId =>
      forall uid s, getMessagesByUserId a uid s = getMessagesByUserId b uid s
  | OpCreateMessage => forall d uid s, createMessage a d uid s = createMessage b d uid s
  | OpUpdateUserPoints =>
      forall uid delta s, updateUserPoints a uid delta s = updateUserPoints b uid delta s
  | OpUpdateUserCheckin => forall uid s, updateUserCheckin a uid s = updateUserCheckin b uid s
  | OpCreateNotification =>
      forall d uid s, createNotification a d uid s = createNotification b d uid s
  | OpGetNotificationsByUserId =>
      forall uid s, getNotificationsByUserId a uid s = getNotificationsByUserId b uid s
  | OpMarkNotificationAsRead =>
      forall id s, markNotificationAsRead a id s = markNotificationAsRead b id s
  | OpMarkAllNotificationsAsRead =>
      forall uid s, markAllNotificationsAsRead a uid s = markAllNotificationsAsRead b uid s
  | OpDeleteNotification => forall id s, deleteNotification a id s = deleteNotification b id s
  | OpGetLeaderboard =>
      forall page limit s, getLeaderboard a page limit s = getLeaderboard b page limit s
  | OpGetSettingsByUserId =>
      forall uid s, getSettingsByUserId a uid s = getSettingsByUserId b uid s
  | OpCreateSettings => forall d uid s, createSettings a d uid s = createSettings b d uid s
  | OpUpdateSettings => forall uid p s, updateSettings a uid p s = updateSettings b uid p s
  | OpGetReferralStats => forall uid s, getReferralStats a uid s = getReferralStats b uid s
  | OpCompleteReferral =>
      forall code uid s, completeReferral a code uid s = completeReferral b code uid s
  end.

(** The storage operations that appear in the text of each handler,
    [getDemoUser] included where it is called. *)
Definition footprint (r : Request) : list Op :=
  match r with
  | GET_messages => [OpGetAllUsers; OpCreateUser; OpGetMessagesByUserId]
  | POST_messages _ => [OpGetAllUsers; OpCreateUser; OpCreateMessage; OpUpdateUserPoints]
  | POST_checkin _ =>
      [OpGetAllUsers; OpCreateUser; OpUpdateUserCheckin; OpCreateNotification]
  | GET_user => [OpGetAllUsers; OpCreateUser]
  | GET_leaderboard _ => [OpGetLeaderboard]
  | GET_notifications => [OpGetAllUsers; OpCreateUser; OpGetNotificationsByUserId]
  | POST_notifications _ => [OpGetAllUsers; OpCreateUser; OpCreateNotification]
  | PATCH_notification_read _ => [OpMarkNotificationAsRead]
  | POST_notifications_mark_all_read =>
      [OpGetAllUsers; OpCreateUser; OpMarkAllNotificationsAsRead]
  | DELETE_notification _ => [OpDeleteNotification]
  | GET_settings => [OpGetAllUsers; OpCreateUser; OpGetSettingsByUserId; OpCreateSettings]
  | PATCH_settings _ =>
      [OpGetAllUsers; OpCreateUser; OpGetSettingsByUserId; OpCreateSettings;
       OpUpdateSettings]
  | GET_referral => [OpGetAllUsers; OpCreateUser; OpGetReferralStats]
  | POST_referral_complete _ => [OpCompleteReferral]
  end.

(** Whether a response body is an [{ error: ... }] object. *)
Definition isErrorPayload (p : Payload) : bool :=
  match p with
  | JError _ => true
  | _ => false
  end.

(** The reference store with the notification write down: a fault
    injected after the check-in update. *)
Definition storage_notificationsDown : Storage MemStorage.State :=
  mkStorage MemStorage.State
    MemStorage.mem_getAllUsers MemStorage.mem_createUser
    MemStorage.mem_getMessagesByUserId MemStorage.mem_createMessage
    MemStorage.mem_updateUserPoints MemStorage.mem_updateUserCheckin
    (fun _ _ s => (None, s))
    MemStorage.mem_getNotificationsByUserId MemStorage.mem_markNotificationAsRead
    MemStorage.mem_markAllNotificationsAsRead MemStorage.mem_deleteNotification
    MemStorage.mem_getLeaderboard MemStorage.mem_getSettingsByUserId
    MemStorage.mem_createSettings MemStorage.mem_updateSettings
    MemStorage.mem_getReferralStats MemStorage.mem_completeReferral.

(** * Properties *)

(** ** Running asynchronous code *)

Section AsyncFacts.
Context {S : Type}.

Lemma bind_resolved {A B} (m : Async S A) (k : A -> Async S B) s a s' :
  m s = (Resolved a, s') -> bind m k s = k a s'.
Proof. unfold bind. intros ->. reflexivity. Qed.

Lemma bind_rejected {A B} (m : Async S A) (k : A -> Async S B) s e s' :
  m s = (Rejected e, s') -> bind m k s = (Rejected e, s').
Proof. unfold bind. intros ->. reflexivity. Qed.

Lemma await_some {A} (op : Store S A) s a s' :
  op s = (Some a, s') -> await op s = (Resolved a, s').
Proof. unfold await. intros ->. reflexivity. Qed.

Lemma await_none {A} (op : Store S A) s s' :
  op s = (None, s') -> await op s = (Rejected StorageFailure, s').
Proof. unfold await. intros ->. reflexivity. Qed.

(** An awaited storage call rejects with a storage failure only. *)
Lemma await_rejected {A} (op : Store S A) s e s' :
  await op s = (Rejected e, s') -> e = StorageFailure /\ op s = (None, s').
Proof.
  unfold await. destruct (op s) as [[a|] s1]; intros H; inversion H; auto.
Qed.

Lemma await_resolved {A} (op : Store S A) s a s' :
  await op s = (Resolved a, s') -> op s = (Some a, s').
Proof.
  unfold await. destruct (op s) as [[a1|] s1]; intros H; inversion H; auto.
Qed.

Lemma tryCatch_bind_resolved {A B} (m : Async S A) (k : A -> Async S B) h s a s' :
  m s = (Resolved a, s') -> tryCatch (bind m k) h s = tryCatch (k a) h s'.
Proof. unfold tryCatch. intros H. rewrite (bind_resolved _ _ _ _ _ H). reflexivity. Qed.

Lemma tryCatch_bind_rejected {A B} (m : Async S A) (k : A -> Async S B) h s e s' :
  m s = (Rejected e, s') -> tryCatch (bind m k) h s = (h e, s').
Proof. unfold tryCatch. intros H. rewrite (bind_rejected _ _ _ _ _ H). reflexivity. Qed.
End AsyncFacts.

(** Unfolds the plumbing of [async] code. *)
Ltac run := unfold tryCatch, bind, await, parse, ret, throw in *.

(** Case analysis on a scrutinee that contains no other case analysis. *)
Ltac destruct_innermost x :=
  lazymatch x with
  | context [match _ with _ => _ end] => fail
  | _ => destruct x eqn:?
  end.

(** ** Calendar dates *)

Module CalendarFacts.
Import Calendar.

Example civilFromDays_epoch : civilFromDays 0 = (1970, 1, 1).
Proof. reflexivity. Qed.

Example civilFromDays_leap_day : civilFromDays 19782 = (2024, 2, 29).
Proof. reflexivity. Qed.

Example civilFromDays_before_epoch : civilFromDays (-1) = (1969, 12, 31).
Proof. reflexivity. Qed.

(** Within a 400-year era, the year of the era and the day of that year
    (counted from 1 March) stay in range. *)
Lemma yearOfEra_range doe :
  0 <= doe <= 146096 ->
  let yoe := (doe - doe / 1460 + doe / 36524 - doe / 146096) / 365 in
  let doy := doe - (365 * yoe + yoe / 4 - yoe / 100) in
  0 <= yoe <= 399 /\ 0 <= doy <= 365.
Proof.
  intros H yoe doy. subst yoe doy.
  Z.div_mod_to_equations; lia.
Qed.

(** A day number is recovered from its civil date. *)
Lemma daysFromCivil_civilFromDays z : daysFromCivil (civilFromDays z) = z.
Proof.
  unfold civilFromDays.
  set (z' := z + 719468).
  set (era := z' / 146097).
  set (doe := z' - era * 146097).
  assert (Hdoe : 0 <= doe <= 146096).
  { subst doe era. pose proof (Z.mod_pos_bound z' 146097 eq_refl) as Hm.
    rewrite Z.mod_eq in Hm by discriminate. lia. }
  pose proof (yearOfEra_range doe Hdoe) as Hy. cbv zeta in Hy.
  set (yoe := (doe - doe / 1460 + doe / 36524 - doe / 146096) / 365) in *.
  set (doy := doe - (365 * yoe + yoe / 4 - yoe / 100)) in *.
  destruct Hy as [Hyoe Hdoy].
  set (mp := (5 * doy + 2) / 153).
  assert (Hmp : 0 <= mp <= 11) by (subst mp; Z.div_mod_to_equations; lia).
  cbv zeta. unfold daysFromCivil.
  set (m := if mp <? 10 then mp + 3 else mp - 9).
  set (carry := if m <=? 2 then 1 else 0).
  assert (Hm : (if 2 <? m then m - 3 else m + 9) = mp).
  { subst m. destruct (Z.ltb_spec mp 10) as [H|H];
      [destruct (Z.ltb_spec 2 (mp + 3)) | destruct (Z.ltb_spec 2 (mp - 9))]; lia. }
  assert (Hera : (yoe + era * 400 + carry - carry) / 400 = era).
  { replace (yoe + era * 400 + carry - carry) with (yoe + era * 400) by lia.
    rewrite Z.div_add by discriminate. rewrite Z.div_small by lia. lia. }
  cbv zeta. rewrite Hm, Hera.
  replace (yoe + era * 400 + carry - carry - era * 400) with yoe by lia.
  subst doy doe z'. lia.
Qed.

(** Two days with the same civil date are the same day. *)
Lemma civilFromDays_inj a b : civilFromDays a = civilFromDays b -> a = b.
Proof.
  intros H. rewrite <- (daysFromCivil_civilFromDays a), <- (daysFromCivil_civilFromDays b).
  f_equal. exact H.
Qed.

(** [isSameDay] holds exactly when the two instants fall on the same
    local day. *)
Lemma isSameDay_localDay (localTZA : Z -> Z) (a b : Z) :
  isSameDay localTZA a b = true <-> localDay localTZA a = localDay localTZA b.
Proof.
  unfold isSameDay, getDate, getMonth, getFullYear. split.
  - rewrite !andb_true_iff, !Z.eqb_eq. intros [[Hd Hm] Hy].
    apply civilFromDays_inj.
    destruct (civilFromDays (localDay localTZA a)) as [[ya ma] da].
    destruct (civilFromDays (localDay localTZA b)) as [[yb mb] db].
    cbn in *. f_equal; [f_equal|]; lia.
  - intros ->. rewrite !Z.eqb_refl. reflexivity.
Qed.

(** On a host with a fixed offset, an instant whose local time is 23:59
    and the instant one minute later are on different days ... *)
Lemma minute_after_2359 (offset last : Z) :
  (last + offset) mod msPerDay = (23 * 60 + 59) * msPerMinute ->
  isSameDay (fun _ => offset) last (last + msPerMinute) = false.
Proof.
  intros H. apply not_true_is_false. rewrite isSameDay_localDay.
  unfold localDay, msPerDay, msPerMinute in *.
  Z.div_mod_to_equations; lia.
Qed.

(** ... while 00:01 and 23:58 of one day, almost 24 hours apart, are on
    the same day. *)
Lemma same_day_0001_2358 (offset last : Z) :
  (last + offset) mod msPerDay = msPerMinute ->
  isSameDay (fun _ => offset) last (last + (23 * 60 + 57) * msPerMinute) = true.
Proof.
  intros H. rewrite isSameDay_localDay.
  unfold localDay, msPerDay, msPerMinute in *.
  Z.div_mod_to_equations; lia.
Qed.
End CalendarFacts.

(** ** The handlers, over any storage *)

Section RouteFacts.
Context {S : Type}.
Variable storage : Storage S.
Variable schemas : Schemas.
Variable localTZA : Z -> Z.

(** Every handler is its [try] block wrapped in its [catch] block. *)
Lemma route_tryCatch (r : Request) :
  route storage schemas localTZA r
  = tryCatch (tryBlock storage schemas localTZA r) (fun _ => catchResponse r).
Proof. destruct r; reflexivity. Qed.

(** The handlers that resolve a user begin by awaiting [getDemoUser]. *)
Lemma tryBlock_forUser (r : Request) k :
  forUser storage schemas localTZA r = Some k ->
  tryBlock storage schemas localTZA r = (let* user := getDemoUser storage in k user).
Proof. destruct r; intros H; inversion H; reflexivity. Qed.

(** [users[users.length - 1]] is the last element. *)
Lemma getDemoUser_cases s :
  match getAllUsers storage s with
  | (None, s1) => getDemoUser storage s = (Rejected StorageFailure, s1)
  | (Some users, s1) =>
      match last users with
      | None =>
          users = []
          /\ getDemoUser storage s = await (createUser storage demoCredentials) s1
      | Some u => getDemoUser storage s = (Resolved u, s1)
      end
  end.
Proof.
  unfold getDemoUser. run.
  destruct (getAllUsers storage s) as [[users|] s1]; [|reflexivity].
  rewrite last_lookup.
  destruct users as [|u0 users]; [split; reflexivity|].
  cbn [length Nat.eqb Nat.pred].
  replace (Datatypes.S (length users) - 1)%nat with (length users) by lia.
  destruct ((u0 :: users) !! length users) as [u|] eqn:E; [reflexivity|].
  apply lookup_ge_None in E. cbn in E. lia.
Qed.

(** [getDemoUser] never throws on its own account: it can only pass on a
    storage failure. *)
Lemma getDemoUser_rejected s e s' :
  getDemoUser storage s = (Rejected e, s') -> e = StorageFailure.
Proof.
  pose proof (getDemoUser_cases s) as H.
  destruct (getAllUsers storage s) as [[users|] s1].
  - destruct (last users) as [u|].
    + rewrite H. discriminate.
    + destruct H as [_ ->]. intros H. apply await_rejected in H. tauto.
  - rewrite H. congruence.
Qed.

(** C2: every handler that needs a current user resolves it the same way:
    all users are fetched; when there are none, a user is created with the
    fixed demo credentials and the handler goes on with that user;
    otherwise it goes on with the last element of the fetched list (the
    most recently created user), whatever the first element is. *)
Theorem C2_resolved_user_is_last (r : Request) (k : User -> Async S Response) :
  forUser storage schemas localTZA r = Some k ->
  forall s,
    match getAllUsers storage s with
    | (None, s1) =>
        route storage schemas localTZA r s = (catchResponse r, s1)
    | (Some [], s1) =>
        getDemoUser storage s = await (createUser storage demoCredentials) s1
        /\ route storage schemas localTZA r s
           = tryCatch (let* user := await (createUser storage demoCredentials) in k user)
               (fun _ => catchResponse r) s1
    | (Some (first :: others), s1) =>
        exists u,
          last (first :: others) = Some u
          /\ getDemoUser storage s = (Resolved u, s1)
          /\ route storage schemas localTZA r s
             = tryCatch (k u) (fun _ => catchResponse r) s1
    end.
Proof.
  intros Hk s.
  rewrite route_tryCatch, (tryBlock_forUser r k Hk).
  pose proof (getDemoUser_cases s) as H.
  destruct (getAllUsers storage s) as [[users|] s1].
  - destruct users as [|first others].
    + cbn in H. destruct H as [_ H]. split; [exact H|].
      unfold tryCatch, bind. rewrite H. reflexivity.
    + destruct (last (first :: others)) as [u|] eqn:El.
      * exists u. split; [reflexivity|]. split; [exact H|].
        apply tryCatch_bind_resolved, H.
      * destruct H as [H _]. discriminate.
  - rewrite (tryCatch_bind_rejected _ _ _ _ _ _ H). reflexivity.
Qed.

(** *** Check-in *)

(** The guard of the check-in handler compares the three local calendar
    components and nothing else. *)
Lemma alreadyCheckedIn_spec (u : User) (today : Z) :
  alreadyCheckedIn localTZA u today = true
  <-> exists last,
        lastCheckin u = Some last
        /\ Calendar.getDate localTZA last = Calendar.getDate localTZA today
        /\ Calendar.getMonth localTZA last = Calendar.getMonth localTZA today
        /\ Calendar.getFullYear localTZA last = Calendar.getFullYear localTZA today.
Proof.
  unfold alreadyCheckedIn, Calendar.isSameDay.
  destruct (lastCheckin u) as [last|].
  - rewrite !andb_true_iff, !Z.eqb_eq. split.
    + intros [[Hd Hm] Hy]. exists last. auto.
    + intros (last' & E & Hd & Hm & Hy). inversion E; subst. auto.
  - split; [discriminate|]. intros (last & E & _). discriminate.
Qed.

(** What the check-in handler does once the user is resolved. *)
Lemma postCheckin_resolved today s u s1 :
  getDemoUser storage s = (Resolved u, s1) ->
  postCheckin storage localTZA today s
  = if alreadyCheckedIn localTZA u today then (fail 400 "Already checked in today", s1)
    else
      match updateUserCheckin storage (user_id u) s1 with
      | (None, s2) => (fail 500 "Failed to check in", s2)
      | (Some u', s2) =>
          match createNotification storage checkinNotification (user_id u) s2 with
          | (None, s3) => (fail 500 "Failed to check in", s3)
          | (Some _, s3) => (json (JUser u'), s3)
          end
      end.
Proof.
  intros Hu. unfold postCheckin, postCheckin_try.
  rewrite (tryCatch_bind_resolved _ _ _ _ _ _ Hu).
  unfold postCheckin_for.
  destruct (alreadyCheckedIn localTZA u today); [reflexivity|].
  run.
  destruct (updateUserCheckin storage (user_id u) s1) as [[u'|] s2]; [|reflexivity].
  destruct (createNotification storage checkinNotification (user_id u) s2) as [[n|] s3];
    reflexivity.
Qed.

(** C1: once the user is resolved, [POST /checkin] answers 400 exactly
    when the user's last check-in is not null and its local day of the
    month, month and year equal those of the current time, and then the
    body is the "Already checked in today" error.  On any other local
    calendar date the check-in goes through (status 200) as soon as the two
    storage calls resolve.  The three components agree exactly when the
    two instants fall on the same local day, so the rule is not a 24-hour
    window: on a host with a fixed offset, a check-in at 23:59 never
    blocks one a minute later, while one at 00:01 blocks another at 23:58
    of the same day. *)
Theorem C1_checkin_same_day (today : Z) s u s1 :
  getDemoUser storage s = (Resolved u, s1) ->
  let answer := (postCheckin storage localTZA today s).1 in
  let sameDate :=
    exists last,
      lastCheckin u = Some last
      /\ Calendar.getDate localTZA last = Calendar.getDate localTZA today
      /\ Calendar.getMonth localTZA last = Calendar.getMonth localTZA today
      /\ Calendar.getFullYear localTZA last = Calendar.getFullYear localTZA today in
  (status answer = 400 <-> sameDate)
  /\ (sameDate ->
      postCheckin storage localTZA today s = (fail 400 "Already checked in today", s1))
  /\ (~ sameDate ->
      forall u' s2 n s3,
        updateUserCheckin storage (user_id u) s1 = (Some u', s2) ->
        createNotification storage checkinNotification (user_id u) s2 = (Some n, s3) ->
        postCheckin storage localTZA today s = (json (JUser u'), s3))
  /\ (sameDate <->
      exists last,
        lastCheckin u = Some last
        /\ Calendar.localDay localTZA last = Calendar.localDay localTZA today)
  /\ (forall offset last : Z,
        (last + offset) mod Calendar.msPerDay = (23 * 60 + 59) * Calendar.msPerMinute ->
        Calendar.isSameDay (fun _ => offset) last (last + Calendar.msPerMinute) = false)
  /\ (forall offset last : Z,
        (last + offset) mod Calendar.msPerDay = Calendar.msPerMinute ->
        Calendar.isSameDay (fun _ => offset) last
          (last + (23 * 60 + 57) * Calendar.msPerMinute) = true).
Proof.
  intros Hu answer sameDate.
  assert (Hday : sameDate <->
                 exists last,
                   lastCheckin u = Some last
                   /\ Calendar.localDay localTZA last = Calendar.localDay localTZA today).
  { unfold sameDate. rewrite <- alreadyCheckedIn_spec. unfold alreadyCheckedIn.
    destruct (lastCheckin u) as [last|].
    - rewrite CalendarFacts.isSameDay_localDay. split.
      + intros H. exists last. auto.
      + intros (last' & E & H). inversion E; subst. exact H.
    - split; [discriminate|]. intros (last & E & _). discriminate. }
  assert (Hguard : alreadyCheckedIn localTZA u today = true <-> sameDate)
    by apply alreadyCheckedIn_spec.
  pose proof (postCheckin_resolved today s u s1 Hu) as Hrun.
  subst answer.
  split; [split|];
    [| |split; [|split; [|split; [exact Hday|split;
                                   [exact CalendarFacts.minute_after_2359
                                   |exact CalendarFacts.same_day_0001_2358]]]]].
  - intros H400. apply Hguard. rewrite Hrun in H400.
    destruct (alreadyCheckedIn localTZA u today); [reflexivity|].
    destruct (updateUserCheckin storage (user_id u) s1) as [[u'|] s2];
      [destruct (createNotification storage checkinNotification (user_id u) s2)
         as [[n|] s3]|]; cbn in H400; discriminate.
  - intros Hsame. apply Hguard in Hsame. rewrite Hrun, Hsame. reflexivity.
  - intros Hsame. apply Hguard in Hsame. rewrite Hrun, Hsame. reflexivity.
  - intros Hdiff u' s2 n s3 Hup Hcreate. rewrite Hrun.
    destruct (alreadyCheckedIn localTZA u today).
    + exfalso. apply Hdiff, Hguard. reflexivity.
    + rewrite Hup, Hcreate. reflexivity.
Qed.

(** C9: a [POST /checkin] answered with 200 resolved the user, recorded
    the check-in and then created one notification for that user, with the
    fixed title, and did nothing else to the store; one answered with 400
    stopped at the same-day guard, before any update of the check-in and
    before any notification. *)
Theorem C9_checkin_then_notification (today : Z) s answer s' :
  postCheckin storage localTZA today s = (answer, s') ->
  (status answer = 200 ->
     exists u s1 u' s2 n,
       getDemoUser storage s = (Resolved u, s1)
       /\ alreadyCheckedIn localTZA u today = false
       /\ updateUserCheckin storage (user_id u) s1 = (Some u', s2)
       /\ createNotification storage
            (mkInsertNotification "Daily Check-in Complete!"
               "You've earned 10 points! Come back tomorrow for more.")
            (user_id u) s2 = (Some n, s')
       /\ answer = json (JUser u'))
  /\ (status answer = 400 ->
       exists u,
         getDemoUser storage s = (Resolved u, s')
         /\ alreadyCheckedIn localTZA u today = true
         /\ answer = fail 400 "Already checked in today").
Proof.
  intros Hrun.
  destruct (getDemoUser storage s) as [[u|e] s1] eqn:Hu.
  - rewrite (postCheckin_resolved today s u s1 Hu) in Hrun.
    destruct (alreadyCheckedIn localTZA u today) eqn:Hguard.
    + inversion Hrun; subst. split; [discriminate|].
      intros _. exists u. auto.
    + destruct (updateUserCheckin storage (user_id u) s1) as [[u'|] s2] eqn:Hup.
      * fold checkinNotification.
        destruct (createNotification storage checkinNotification (user_id u) s2)
          as [[n|] s3] eqn:Hcreate; inversion Hrun; subst.
        -- split; [|discriminate]. intros _. exists u, s1, u', s2, n. auto.
        -- split; discriminate.
      * inversion Hrun; subst. split; discriminate.
  - unfold postCheckin, postCheckin_try in Hrun.
    rewrite (tryCatch_bind_rejected _ _ _ _ _ _ Hu) in Hrun.
    inversion Hrun; subst. split; discriminate.
Qed.

(** *** Messages *)

(** C10: when the user is resolved, the body is valid and [createMessage]
    resolves but the following [updateUserPoints] rejects, [POST /messages]
    answers 400 "Invalid message data" and the store is left as the failed
    points update left it, after the message was created: the handler
    makes no further storage call, so nothing undoes the creation. *)
Theorem C10_message_kept_on_400 (body : Body) s u s1 parsed m s2 s3 :
  getDemoUser storage s = (Resolved u, s1) ->
  insertMessageSchema schemas body = Some parsed ->
  createMessage storage parsed (user_id u) s1 = (Some m, s2) ->
  updateUserPoints storage (user_id u) 1 s2 = (None, s3) ->
  postMessages storage schemas body s = (fail 400 "Invalid message data", s3).
Proof.
  intros Hu Hparse Hcreate Hpoints.
  unfold postMessages, postMessages_try.
  rewrite (tryCatch_bind_resolved _ _ _ _ _ _ Hu).
  unfold postMessages_for. rewrite Hparse. run.
  rewrite Hcreate, Hpoints. reflexivity.
Qed.

(** What [POST /messages] does once the user is resolved and the body
    parsed. *)
Lemma postMessages_resolved (body : Body) s u s1 parsed :
  getDemoUser storage s = (Resolved u, s1) ->
  insertMessageSchema schemas body = Some parsed ->
  postMessages storage schemas body s
  = match createMessage storage parsed (user_id u) s1 with
    | (None, s2) => (fail 400 "Invalid message data", s2)
    | (Some m, s2) =>
        match updateUserPoints storage (user_id u) 1 s2 with
        | (None, s3) => (fail 400 "Invalid message data", s3)
        | (Some _, s3) => (json (JMessage m), s3)
        end
    end.
Proof.
  intros Hu Hparse.
  unfold postMessages, postMessages_try.
  rewrite (tryCatch_bind_resolved _ _ _ _ _ _ Hu).
  unfold postMessages_for. rewrite Hparse. run.
  destruct (createMessage storage parsed (user_id u) s1) as [[m|] s2]; [|reflexivity].
  destruct (updateUserPoints storage (user_id u) 1 s2) as [[u'|] s3]; reflexivity.
Qed.

(** *** Referrals *)

(** C7 (amended): [POST /referral/complete] answers 400, without calling
    storage, whenever the referral code or the user id is falsy: absent,
    null, the empty string, 0 or false; in particular an absent [userId]
    gives 400 whatever the referral code is.  With both values truthy it
    calls [completeReferral] and answers 404 when that reports failure,
    200 with [{success: true}] when it reports success. *)
Theorem C7_referral_complete (body : Body) s :
  let referralCode := prop "referralCode" body in
  let userId := prop "userId" body in
  (userId = JsUndefined \/ referralCode = JsUndefined ->
   postReferralComplete storage body s = (fail 400 "Missing referral code or user ID", s))
  /\ (truthy referralCode = false \/ truthy userId = false ->
      postReferralComplete storage body s = (fail 400 "Missing referral code or user ID", s))
  /\ (truthy referralCode = true -> truthy userId = true ->
      forall s',
        (completeReferral storage referralCode userId s = (Some false, s') ->
         postReferralComplete storage body s = (fail 404 "Invalid referral code", s'))
        /\ (completeReferral storage referralCode userId s = (Some true, s') ->
            postReferralComplete storage body s = (json JSuccess, s'))).
Proof.
  intros referralCode userId.
  assert (Hfalsy : truthy referralCode = false \/ truthy userId = false ->
                   postReferralComplete storage body s
                   = (fail 400 "Missing referral code or user ID", s)).
  { intros H. unfold postReferralComplete, postReferralComplete_try.
    fold referralCode userId.
    replace (negb (truthy referralCode) || negb (truthy userId)) with true
      by (destruct H as [-> | ->]; [reflexivity | apply eq_sym, orb_true_r]).
    reflexivity. }
  split; [|split].
  - intros [-> | ->]; apply Hfalsy; [right | left]; reflexivity.
  - exact Hfalsy.
  - intros Hcode Huser s'.
    unfold postReferralComplete, postReferralComplete_try.
    fold referralCode userId. rewrite Hcode, Huser. cbn [negb orb]. run.
    split; intros ->; reflexivity.
Qed.

(** *** Settings *)


(** *** Statuses *)

(** A [try] block rejects with a storage failure, or with the validation
    error of a schema that rejected the body. *)
Lemma tryBlock_rejected (r : Request) s e s' :
  tryBlock storage schemas localTZA r s = (Rejected e, s') ->
  e = StorageFailure \/ (e = ZodError /\ schemaRejects schemas r = true).
Proof.
  destruct r; cbn [tryBlock schemaRejects];
    unfold getMessages_try, postMessages_try, postCheckin_try, getUser_try,
      getLeaderboard_try, getNotifications_try, postNotifications_try,
      patchNotificationRead_try, postMarkAllRead_try, deleteNotificationById_try,
      getSettings_try, patchSettings_try, getReferral_try, postReferralComplete_try,
      getMessages_for, postMessages_for, postCheckin_for, getUser_for,
      getNotifications_for, postNotifications_for, postMarkAllRead_for,
      getSettings_for, patchSettings_for, getReferral_for;
    run;
    repeat match goal with
      | |- context [getDemoUser storage s] =>
          let H := fresh "Hu" in
          destruct (getDemoUser storage s) as [[?u|?e0] ?s1] eqn:H;
          [|apply getDemoUser_rejected in H; subst]
      | |- context [match ?x with _ => _ end] => destruct_innermost x
      end;
    intros H; inversion H; subst; auto.
Qed.

(** A [try] block that answers 400 itself stopped at the same-day guard
    of the check-in or at the guard on the referral fields. *)
Lemma tryBlock_resolved_400 (r : Request) s answer s' :
  tryBlock storage schemas localTZA r s = (Resolved answer, s') ->
  status answer = 400 ->
  (exists body, r = POST_referral_complete body /\ missingReferralFields body = true)
  \/ (exists today u,
        r = POST_checkin today
        /\ getDemoUser storage s = (Resolved u, s')
        /\ alreadyCheckedIn localTZA u today = true).
Proof.
  destruct r; cbn [tryBlock];
    unfold getMessages_try, postMessages_try, postCheckin_try, getUser_try,
      getLeaderboard_try, getNotifications_try, postNotifications_try,
      patchNotificationRead_try, postMarkAllRead_try, deleteNotificationById_try,
      getSettings_try, patchSettings_try, getReferral_try, postReferralComplete_try,
      getMessages_for, postMessages_for, postCheckin_for, getUser_for,
      getNotifications_for, postNotifications_for, postMarkAllRead_for,
      getSettings_for, patchSettings_for, getReferral_for, missingReferralFields;
    run;
    repeat match goal with
      | |- context [getDemoUser storage s] =>
          let H := fresh "Hu" in
          destruct (getDemoUser storage s) as [[?u|?e0] ?s1] eqn:H
      | |- context [match ?x with _ => _ end] => destruct_innermost x
      end;
    intros H; inversion H; subst; cbn; try discriminate; intros _;
    first [ solve [right; eexists _, _; repeat split; eauto]
          | solve [left; eexists; split; [reflexivity | eassumption]] ].
Qed.

(** A handler whose schema rejects the body answers 400, whether or not
    the user could be resolved first. *)
Lemma schemaRejects_400 (r : Request) s :
  schemaRejects schemas r = true ->
  status (route storage schemas localTZA r s).1 = 400.
Proof.
  destruct r; cbn [schemaRejects]; try discriminate; intros Hrej;
    cbn [route];
    unfold postMessages, postMessages_try, postNotifications, postNotifications_try,
      patchSettings, patchSettings_try, postMessages_for, postNotifications_for,
      patchSettings_for;
    run;
    destruct (getDemoUser storage s) as [[u|e] s1]; try reflexivity;
    match type of Hrej with
    | rejected ?x = true => destruct x; [discriminate | reflexivity]
    end.
Qed.

(** C3 (amended): a request whose body the schema rejects is answered
    with 400; so are a referral completion whose code or user id is
    missing and a check-in on the day of the last one.  When no storage
    operation rejects, these three are the only causes of a 400.  In the
    handlers that validate no body, a rejected storage operation is
    answered with 500. *)
Theorem C3_error_statuses (r : Request) s :
  let answer := (route storage schemas localTZA r s).1 in
  let tried := (tryBlock storage schemas localTZA r s).1 in
  (schemaRejects schemas r = true -> status answer = 400)
  /\ (forall body,
        r = POST_referral_complete body -> missingReferralFields body = true ->
        status answer = 400)
  /\ (forall today u s1,
        r = POST_checkin today ->
        getDemoUser storage s = (Resolved u, s1) ->
        alreadyCheckedIn localTZA u today = true ->
        status answer = 400)
  /\ (tried <> Rejected StorageFailure -> status answer = 400 ->
      schemaRejects schemas r = true
      \/ (exists body, r = POST_referral_complete body /\ missingReferralFields body = true)
      \/ (exists today u s1,
            r = POST_checkin today
            /\ getDemoUser storage s = (Resolved u, s1)
            /\ alreadyCheckedIn localTZA u today = true))
  /\ (validatesBody r = false -> tried = Rejected StorageFailure -> status answer = 500).
Proof.
  intros answer tried. subst answer tried.
  split; [apply schemaRejects_400|].
  split.
  { intros body -> Hmissing. cbn [route].
    unfold postReferralComplete, postReferralComplete_try, tryCatch.
    unfold missingReferralFields in Hmissing. rewrite Hmissing. reflexivity. }
  split.
  { intros today u s1 -> Hu Hguard. cbn [route].
    rewrite (postCheckin_resolved today s u s1 Hu), Hguard. reflexivity. }
  rewrite route_tryCatch. unfold tryCatch.
  destruct (tryBlock storage schemas localTZA r s) as [[answer|e] s'] eqn:Htry; cbn [fst].
  - split; [|discriminate]. intros _ H400.
    destruct (tryBlock_resolved_400 r s answer s' Htry H400) as [H | (today & u & H)].
    + right. left. exact H.
    + right. right. exists today, u, s'. exact H.
  - split.
    + intros Hnot _.
      destruct (tryBlock_rejected r s e s' Htry) as [-> | [_ Hrej]];
        [contradiction Hnot; reflexivity | left; exact Hrej].
    + intros Hval _. destruct r; try discriminate Hval; reflexivity.
Qed.
End RouteFacts.

(** ** The handlers, over the reference store *)

Module MemFacts.
Import MemStorage.

Lemma mem_getDemoUser_last s u :
  last (db_users s) = Some u ->
  getDemoUser storage s = (Resolved u, s).
Proof.
  intros Hlast. pose proof (getDemoUser_cases storage s) as H.
  cbn in H. unfold mem_getAllUsers in H. rewrite Hlast in H. exact H.
Qed.

Lemma mem_getDemoUser_empty s :
  db_users s = [] ->
  let u := mkUser (freshId s) "DemoUser" "demo" 0 None in
  getDemoUser storage s = (Resolved u, bumpId (setUsers [u] s)).
Proof.
  intros Hnil. unfold getDemoUser. run. cbn.
  unfold mem_getAllUsers, mem_createUser. rewrite Hnil. cbn. rewrite Hnil. reflexivity.
Qed.

(** [getDemoUser] always resolves on this store; it leaves a store whose
    last user is the resolved one, and touches nothing but the users. *)
Lemma mem_getDemoUser_resolved s u s1 :
  getDemoUser storage s = (Resolved u, s1) ->
  last (db_users s1) = Some u
  /\ db_messages s1 = db_messages s
  /\ db_notifications s1 = db_notifications s
  /\ db_settings s1 = db_settings s
  /\ db_clock s1 = db_clock s
  /\ (db_users s <> [] -> s1 = s).
Proof.
  intros Hu. destruct (last (db_users s)) as [u0|] eqn:Hlast.
  - rewrite (mem_getDemoUser_last s u0 Hlast) in Hu. inversion Hu; subst. auto 10.
  - apply last_None in Hlast.
    rewrite (mem_getDemoUser_empty s Hlast) in Hu. inversion Hu; subst. cbn.
    repeat split; auto. intros Hne. contradiction.
Qed.

Lemma mem_getDemoUser_total s :
  exists u s1, getDemoUser storage s = (Resolved u, s1).
Proof.
  destruct (last (db_users s)) as [u0|] eqn:Hlast.
  - eexists _, _. apply mem_getDemoUser_last, Hlast.
  - apply last_None in Hlast. eexists _, _. apply (mem_getDemoUser_empty s Hlast).
Qed.

Lemma hasId_refl u : hasId (user_id u) u = true.
Proof. unfold hasId. apply String.eqb_refl. Qed.

Lemma last_alterUser f uid us :
  last (alterUser f uid us) = (fun u => if hasId uid u then f u else u) <$> last us.
Proof. unfold alterUser. apply fmap_last. Qed.

(** A user record that is stored is found again after an update that
    keeps identifiers. *)
Lemma find_alterUser f uid us u :
  (forall x, user_id (f x) = user_id x) ->
  u ∈ us -> user_id u = uid ->
  exists u', List.find (hasId uid) (alterUser f uid us) = Some u'.
Proof.
  intros Hid Hin Hu.
  destruct (List.find (hasId uid) (alterUser f uid us)) as [u'|] eqn:E; [eauto|].
  exfalso.
  assert (Hfu : hasId uid (f u) = true)
    by (unfold hasId; rewrite Hid, Hu; apply String.eqb_refl).
  rewrite (find_none _ _ E (f u)) in Hfu; [discriminate|].
  apply list_elem_of_In. unfold alterUser. apply list_elem_of_fmap.
  exists u. split; [|exact Hin].
  unfold hasId. rewrite Hu, String.eqb_refl. reflexivity.
Qed.

Lemma last_elem_of {A} (l : list A) x : last l = Some x -> x ∈ l.
Proof.
  rewrite last_lookup. intros H. apply list_elem_of_lookup. eauto.
Qed.

(** Updating the resolved user succeeds and keeps it the resolved user. *)
Lemma mem_updateUser_last f s u :
  (forall x, user_id (f x) = user_id x) ->
  last (db_users s) = Some u ->
  exists u',
    mem_updateUser f (user_id u) s
    = (Some u', setUsers (alterUser f (user_id u) (db_users s)) s)
    /\ last (alterUser f (user_id u) (db_users s)) = Some (f u).
Proof.
  intros Hid Hlast.
  destruct (find_alterUser f (user_id u) (db_users s) u Hid) as [u' E];
    [apply last_elem_of, Hlast | reflexivity |].
  exists u'. unfold mem_updateUser. rewrite E. split; [reflexivity|].
  rewrite last_alterUser, Hlast. cbn. rewrite hasId_refl. reflexivity.
Qed.

(** *** Messages *)

Lemma mem_getMessages s u s1 :
  getDemoUser storage s = (Resolved u, s1) ->
  getMessages storage s
  = (json (JMessages (filter (fun m => ownedBy (user_id u) m) (db_messages s1))), s1).
Proof.
  intros Hu. unfold getMessages, getMessages_try.
  rewrite (tryCatch_bind_resolved _ _ _ _ _ _ Hu). reflexivity.
Qed.

(** C4: for a body the schema accepts, [POST /messages] answers 200 with
    a message that belongs to the resolved user and carries the parsed
    content; afterwards the resolved user is the same user with exactly
    one more point, and [GET /messages] returns what it returned before
    followed by the created message. *)
Theorem C4_message_awards_point (schemas : Schemas) (body : Body) parsed s u s1 :
  insertMessageSchema schemas body = Some parsed ->
  getDemoUser storage s = (Resolved u, s1) ->
  exists m s' u' before,
    postMessages storage schemas body s = (json (JMessage m), s')
    /\ message_userId m = user_id u
    /\ content m = im_content parsed
    /\ getDemoUser storage s' = (Resolved u', s')
    /\ user_id u' = user_id u
    /\ points u' = points u + 1
    /\ getMessages storage s = (json (JMessages before), s1)
    /\ getMessages storage s' = (json (JMessages (before ++ [m])), s').
Proof.
  intros Hparse Hu.
  destruct (mem_getDemoUser_resolved s u s1 Hu) as (Hlast & _).
  set (m := mkMessage (freshId s1) (user_id u) (im_content parsed)).
  set (s2 := bumpId (setMessages (db_messages s1 ++ [m]) s1)).
  destruct (mem_updateUser_last (addPoints 1) s2 u (fun _ => eq_refl) Hlast)
    as (u0 & Hupd & Hlast').
  set (s' := setUsers (alterUser (addPoints 1) (user_id u) (db_users s2)) s2) in *.
  assert (Hu' : getDemoUser storage s' = (Resolved (addPoints 1 u), s'))
    by (apply mem_getDemoUser_last; exact Hlast').
  exists m, s', (addPoints 1 u), (filter (fun x => ownedBy (user_id u) x) (db_messages s1)).
  repeat split.
  - rewrite (postMessages_resolved storage schemas body s u s1 parsed Hu Hparse).
    change (createMessage storage parsed (user_id u) s1) with (Some m, s2).
    cbv iota beta.
    change (updateUserPoints storage (user_id u) 1 s2)
      with (mem_updateUser (addPoints 1) (user_id u) s2).
    rewrite Hupd. reflexivity.
  - exact Hu'.
  - apply mem_getMessages, Hu.
  - rewrite (mem_getMessages s' _ s' Hu'). cbn [user_id addPoints db_messages s' s2 setUsers bumpId setMessages].
    rewrite filter_app. f_equal. f_equal. f_equal.
    rewrite filter_cons_True; [reflexivity|].
    cbn. unfold ownedBy. cbn. rewrite String.eqb_refl. exact I.
Qed.

(** *** Settings *)

Lemma mem_getSettings s u s1 :
  getDemoUser storage s = (Resolved u, s1) ->
  getSettings storage s
  = match db_settings s1 !! user_id u with
    | Some st => (json (JSettings st), s1)
    | None =>
        let st := mkSettings (user_id u) "light" true false in
        (json (JSettings st), setSettings (<[user_id u := st]> (db_settings s1)) s1)
    end.
Proof.
  intros Hu. unfold getSettings, getSettings_try.
  rewrite (tryCatch_bind_resolved _ _ _ _ _ _ Hu).
  unfold getSettings_for, tryCatch, bind, await. cbn.
  unfold mem_getSettingsByUserId.
  destruct (db_settings s1 !! user_id u); reflexivity.
Qed.

(** C6: when the resolved user has no settings record, [GET /settings]
    answers 200 with theme "light", notifications on and email
    notifications off, and stores that record for the user; a second
    [GET /settings] returns the same record and changes nothing. *)
Theorem C6_settings_defaults s u s1 :
  getDemoUser storage s = (Resolved u, s1) ->
  db_settings s !! user_id u = None ->
  let st := mkSettings (user_id u) "light" true false in
  exists s',
    getSettings storage s = (json (JSettings st), s')
    /\ db_settings s' !! user_id u = Some st
    /\ getSettings storage s' = (json (JSettings st), s').
Proof.
  intros Hu Hnone st.
  destruct (mem_getDemoUser_resolved s u s1 Hu) as (Hlast & _ & _ & Hset & _).
  exists (setSettings (<[user_id u := st]> (db_settings s1)) s1).
  assert (Hstored :
    db_settings (setSettings (<[user_id u := st]> (db_settings s1)) s1) !! user_id u
    = Some st) by (cbn; apply lookup_insert_eq).
  split; [|split].
  - rewrite (mem_getSettings s u s1 Hu), Hset, Hnone. reflexivity.
  - exact Hstored.
  - rewrite (mem_getSettings _ u _
               (mem_getDemoUser_last
                  (setSettings (<[user_id u := st]> (db_settings s1)) s1) u Hlast)),
      Hstored.
    reflexivity.
Qed.

Lemma mem_patchSettings (schemas : Schemas) (body : Body) parsed s u s1 :
  insertSettingsSchema_partial schemas body = Some parsed ->
  getDemoUser storage s = (Resolved u, s1) ->
  patchSettings storage schemas body s
  = let st :=
      match db_settings s1 !! user_id u with
      | None =>
          mkSettings (user_id u) (themeOrLight (ps_theme parsed))
            (nullish (ps_notifications parsed) true)
            (nullish (ps_emailNotifications parsed) false)
      | Some old => mergeSettings old parsed
      end in
    (json (JSettings st), setSettings (<[user_id u := st]> (db_settings s1)) s1).
Proof.
  intros Hparse Hu. unfold patchSettings, patchSettings_try.
  rewrite (tryCatch_bind_resolved _ _ _ _ _ _ Hu).
  unfold patchSettings_for. rewrite Hparse.
  unfold tryCatch, bind, await, parse, ret.
  cbn [getSettingsByUserId createSettings updateSettings storage].
  unfold mem_getSettingsByUserId, mem_updateSettings.
  destruct (db_settings s1 !! user_id u) as [old|] eqn:E; [rewrite E|]; reflexivity.
Qed.

(** On this store, for a body the partial schema accepts,
    [PATCH /settings] answers 200 and stores the answered record for the
    resolved user, leaving the records of other users alone.  When the
    user had no record, the new one takes each supplied toggle, or its
    default (true for notifications, false for email notifications), and
    the supplied theme when that is a non-empty string, otherwise "light".
    When the user had a record, each supplied field replaces the stored
    one and every other field is unchanged. *)
Lemma mem_patchSettings_fields (schemas : Schemas) (body : Body) parsed s u s1 :
  insertSettingsSchema_partial schemas body = Some parsed ->
  getDemoUser storage s = (Resolved u, s1) ->
  exists st s',
    patchSettings storage schemas body s = (json (JSettings st), s')
    /\ db_settings s' = <[user_id u := st]> (db_settings s)
    /\ match db_settings s !! user_id u with
       | None =>
           settings_userId st = user_id u
           /\ theme st = match ps_theme parsed with
                         | Some t => if String.eqb t "" then "light" else t
                         | None => "light"
                         end
           /\ notifications st = default true (ps_notifications parsed)
           /\ emailNotifications st = default false (ps_emailNotifications parsed)
       | Some old =>
           settings_userId st = settings_userId old
           /\ theme st = default (theme old) (ps_theme parsed)
           /\ notifications st = default (notifications old) (ps_notifications parsed)
           /\ emailNotifications st
              = default (emailNotifications old) (ps_emailNotifications parsed)
       end.
Proof.
  intros Hparse Hu.
  destruct (mem_getDemoUser_resolved s u s1 Hu) as (_ & _ & _ & Hset & _).
  rewrite (mem_patchSettings schemas body parsed s u s1 Hparse Hu), Hset.
  eexists _, _. split; [reflexivity|]. split; [reflexivity|].
  destruct (db_settings s !! user_id u) as [old|]; cbn.
  - repeat split.
  - repeat split.
Qed.

(** *** Notifications *)

Lemma mem_getNotifications s u s1 :
  getDemoUser storage s = (Resolved u, s1) ->
  getNotifications storage s
  = (json (JNotifications
             (filter (fun n => sentTo (user_id u) n) (db_notifications s1))), s1).
Proof.
  intros Hu. unfold getNotifications, getNotifications_try.
  rewrite (tryCatch_bind_resolved _ _ _ _ _ _ Hu). reflexivity.
Qed.

Lemma existsb_isNotification id (ns : list Notification) :
  existsb (isNotification id) ns = true
  <-> exists n, n ∈ ns /\ notification_id n = id.
Proof.
  rewrite existsb_exists. unfold isNotification. split.
  - intros (n & Hin & E). exists n. split; [apply list_elem_of_In, Hin|].
    apply String.eqb_eq, E.
  - intros (n & Hin & E). exists n. split; [apply list_elem_of_In, Hin|].
    apply String.eqb_eq, E.
Qed.

(** C8: [DELETE /notifications/:id] for an id that no stored notification
    has answers 404 and leaves the store as it was; for the id of a stored
    notification it answers 200 with [{success: true}], removes the
    notifications of that id and no other, and no later
    [GET /notifications] returns a notification of that id. *)
Theorem C8_delete_notification (id : string) s :
  ((forall n, n ∈ db_notifications s -> notification_id n <> id) ->
   deleteNotificationById storage id s = (fail 404 "Notification not found", s))
  /\ ((exists n, n ∈ db_notifications s /\ notification_id n = id) ->
      exists s',
        deleteNotificationById storage id s = (json JSuccess, s')
        /\ (forall n, n ∈ db_notifications s'
                      <-> n ∈ db_notifications s /\ notification_id n <> id)
        /\ (forall answer s'',
              getNotifications storage s' = (answer, s'') ->
              exists ns,
                answer = json (JNotifications ns)
                /\ forall n, n ∈ ns -> notification_id n <> id)).
Proof.
  assert (Hkept : forall n,
    n ∈ filter (fun n => negb (isNotification id n)) (db_notifications s)
    <-> n ∈ db_notifications s /\ notification_id n <> id).
  { intros n. rewrite list_elem_of_filter. unfold isNotification.
    destruct (String.eqb_spec (notification_id n) id) as [E|E]; cbn; tauto. }
  unfold deleteNotificationById, deleteNotificationById_try, tryCatch, bind, await.
  cbn [deleteNotification storage]. unfold mem_deleteNotification.
  destruct (existsb (isNotification id) (db_notifications s)) eqn:Hex.
  - apply existsb_isNotification in Hex. split.
    + intros Hnone. destruct Hex as (n & Hin & E). contradiction (Hnone n Hin E).
    + intros _. eexists. split; [reflexivity|]. split; [exact Hkept|].
      intros answer s'' Hget.
      destruct (mem_getDemoUser_total
                  (setNotifications
                     (filter (fun n => negb (isNotification id n)) (db_notifications s)) s))
        as (u & s1 & Hu).
      rewrite (mem_getNotifications _ u s1 Hu) in Hget.
      destruct (mem_getDemoUser_resolved _ u s1 Hu) as (_ & _ & Hns & _).
      inversion Hget; subst. eexists. split; [reflexivity|].
      intros n Hin. apply list_elem_of_filter in Hin. destruct Hin as [_ Hin].
      rewrite Hns in Hin. cbn in Hin. apply Hkept in Hin. tauto.
  - split; [reflexivity|].
    intros Hsome. apply existsb_isNotification in Hsome. congruence.
Qed.

(** *** Check-in *)

(** On this store a successful check-in stamps the resolved user with the
    clock's time and appends exactly one notification, addressed to that
    user; a rejected one leaves the store as it was. *)
Lemma mem_checkin_adds_one_notification (localTZA : Z -> Z) (today : Z) s answer s' :
  postCheckin storage localTZA today s = (answer, s') ->
  (status answer = 200 ->
   exists u n,
     getDemoUser storage s' = (Resolved u, s')
     /\ lastCheckin u = Some (db_clock s)
     /\ db_notifications s' = (db_notifications s ++ [n])%list
     /\ notification_userId n = user_id u
     /\ title n = "Daily Check-in Complete!"
     /\ read n = false)
  /\ (status answer = 400 -> s' = s).
Proof.
  intros Hrun.
  destruct (mem_getDemoUser_total s) as (u & s1 & Hu).
  destruct (mem_getDemoUser_resolved s u s1 Hu) as (Hlast & _ & Hns & _ & Hclock & Hsame).
  rewrite (postCheckin_resolved storage localTZA today s u s1 Hu) in Hrun.
  destruct (alreadyCheckedIn localTZA u today) eqn:Hguard.
  - inversion Hrun; subst. split; [discriminate|]. intros _.
    apply Hsame. intros Hnil.
    destruct (last (db_users s)) as [u0|] eqn:E;
      [rewrite Hnil in E; discriminate|].
    rewrite (mem_getDemoUser_empty s Hnil) in Hu. inversion Hu; subst.
    unfold alreadyCheckedIn in Hguard. cbn in Hguard. discriminate.
  - destruct (mem_updateUser_last (checkedInAt (db_clock s1)) s1 u (fun _ => eq_refl) Hlast)
      as (u0 & Hupd & Hlast').
    change (updateUserCheckin storage (user_id u) s1)
      with (mem_updateUser (checkedInAt (db_clock s1)) (user_id u) s1) in Hrun.
    rewrite Hupd in Hrun. cbn in Hrun. inversion Hrun; subst. split; [|discriminate].
    intros _. eexists _, _. split; [apply mem_getDemoUser_last; exact Hlast'|].
    cbn. rewrite Hns, Hclock. auto.
Qed.

(** After a successful check-in, a second one on the clock's local date
    is answered 400 and leaves the store as it is. *)
Lemma mem_checkin_twice (localTZA : Z -> Z) (today again : Z) s answer s' :
  postCheckin storage localTZA today s = (answer, s') ->
  status answer = 200 ->
  Calendar.localDay localTZA (db_clock s) = Calendar.localDay localTZA again ->
  postCheckin storage localTZA again s' = (fail 400 "Already checked in today", s').
Proof.
  intros Hrun H200 Hday.
  destruct (mem_checkin_adds_one_notification localTZA today s answer s' Hrun)
    as [Hok _].
  destruct (Hok H200) as (u & n & Hu & Hstamp & _).
  rewrite (postCheckin_resolved storage localTZA again s' u s' Hu).
  unfold alreadyCheckedIn. rewrite Hstamp.
  rewrite (proj2 (CalendarFacts.isSameDay_localDay localTZA (db_clock s) again) Hday).
  reflexivity.
Qed.
End MemFacts.

(** ** Worked instances *)

Module Instances.
Import MemStorage Samples.

(** C1 on a UTC host: the user checked in at 23:59 on 10 March and asks
    again one minute later, at 00:00 on 11 March; the request is not
    rejected. *)
Lemma C1_checkin_same_day_witness :
  getDemoUser storage (checkedIn t_2359 t_0000)
  = (Resolved (carol t_2359), checkedIn t_2359 t_0000)
  /\ status (postCheckin storage Calendar.utc t_0000 (checkedIn t_2359 t_0000)).1 <> 400
  /\ status (postCheckin storage Calendar.utc t_0000 (checkedIn t_2359 t_0000)).1 = 200.
Proof.
  split; [reflexivity|]. split; [|vm_compute; reflexivity].
  intros H400.
  pose proof (C1_checkin_same_day storage Calendar.utc t_0000
                (checkedIn t_2359 t_0000) (carol t_2359) (checkedIn t_2359 t_0000)
                eq_refl) as H.
  cbv zeta in H. destruct H as [Hiff _].
  apply Hiff in H400. destruct H400 as (last & E & Hday & _).
  inversion E; subst last. vm_compute in Hday. discriminate Hday.
Defined.

(** C3 (amended) at a same-day check-in: the 400 comes from the guard, no
    schema and no body field being involved. *)
Lemma C3_error_statuses_witness :
  (tryBlock storage shapeSchemas Calendar.utc (POST_checkin t_2358)
     (checkedIn t_0001 t_2358)).1 <> Rejected StorageFailure
  /\ status (route storage shapeSchemas Calendar.utc (POST_checkin t_2358)
              (checkedIn t_0001 t_2358)).1 = 400
  /\ (schemaRejects shapeSchemas (POST_checkin t_2358) = true
      \/ (exists body,
            POST_checkin t_2358 = POST_referral_complete body
            /\ missingReferralFields body = true)
      \/ (exists today u s1,
            POST_checkin t_2358 = POST_checkin today
            /\ getDemoUser storage (checkedIn t_0001 t_2358) = (Resolved u, s1)
            /\ alreadyCheckedIn Calendar.utc u today = true)).
Proof.
  assert (Hok : (tryBlock storage shapeSchemas Calendar.utc (POST_checkin t_2358)
                   (checkedIn t_0001 t_2358)).1 <> Rejected StorageFailure)
    by (vm_compute; discriminate).
  assert (H400 : status (route storage shapeSchemas Calendar.utc (POST_checkin t_2358)
                           (checkedIn t_0001 t_2358)).1 = 400)
    by (vm_compute; reflexivity).
  split; [exact Hok|]. split; [exact H400|].
  destruct (C3_error_statuses storage shapeSchemas Calendar.utc
              (POST_checkin t_2358) (checkedIn t_0001 t_2358))
    as (_ & _ & _ & Hcauses & _).
  exact (Hcauses Hok H400).
Defined.

(** C3 as stated fails twice.  With the store unreachable, a valid
    [POST /messages] is answered 400, not 500, although nothing but a
    storage operation failed.  And a same-day [POST /checkin], which has
    no body to validate, is answered 400. *)
Lemma C3_counterexample :
  let body := [("content", JsString "hi")] in
  schemaRejects shapeSchemas (POST_messages body) = false
  /\ tryBlock storage_down shapeSchemas Calendar.utc (POST_messages body) empty
     = (Rejected StorageFailure, empty)
  /\ route storage_down shapeSchemas Calendar.utc (POST_messages body) empty
     = (fail 400 "Invalid message data", empty)
  /\ status (fail 400 "Invalid message data") <> 500
  /\ route storage shapeSchemas Calendar.utc (POST_checkin t_2358) (checkedIn t_0001 t_2358)
     = (fail 400 "Already checked in today", checkedIn t_0001 t_2358).
Proof.
  cbv zeta. repeat split; try (vm_compute; reflexivity). vm_compute. discriminate.
Qed.

(** C7 (amended) with one open referral stored: a known code completes,
    an unknown one is answered 404, a body without [userId] 400. *)
Lemma C7_referral_complete_witness :
  let known := [("referralCode", JsString "ABC"); ("userId", JsString "u-bob")] in
  let unknown := [("referralCode", JsString "XYZ"); ("userId", JsString "u-bob")] in
  let noUser := [("referralCode", JsString "ABC")] in
  (postReferralComplete storage known withReferral).1 = json JSuccess
  /\ postReferralComplete storage unknown withReferral
     = (fail 404 "Invalid referral code", withReferral)
  /\ postReferralComplete storage noUser withReferral
     = (fail 400 "Missing referral code or user ID", withReferral).
Proof.
  intros known unknown noUser.
  pose proof (C7_referral_complete storage known withReferral) as Hknown.
  pose proof (C7_referral_complete storage unknown withReferral) as Hunknown.
  pose proof (C7_referral_complete storage noUser withReferral) as HnoUser.
  cbv zeta in Hknown, Hunknown, HnoUser.
  destruct Hknown as (_ & _ & Hknown).
  destruct Hunknown as (_ & _ & Hunknown).
  destruct HnoUser as (HnoUser & _).
  split; [|split].
  - destruct (Hknown eq_refl eq_refl
                (completeReferral storage (JsString "ABC") (JsString "u-bob") withReferral).2)
      as [_ Hsuccess].
    rewrite Hsuccess; reflexivity.
  - destruct (Hunknown eq_refl eq_refl withReferral) as [Hfailure _].
    apply Hfailure. reflexivity.
  - apply HnoUser. left. reflexivity.
Defined.

(** C7 as stated fails on a field that is present but empty: with the
    code "ABC" on file and [userId: ""], both fields are present and
    [completeReferral] would report success, yet the answer is 400 and
    storage is not called; with [referralCode: ""] it would report
    failure, and the answer is 400 again, not 404. *)
Lemma C7_counterexample :
  let emptyUser := [("referralCode", JsString "ABC"); ("userId", JsString "")] in
  let emptyCode := [("referralCode", JsString ""); ("userId", JsString "u-bob")] in
  (prop "referralCode" emptyUser <> JsUndefined /\ prop "userId" emptyUser <> JsUndefined)
  /\ (completeReferral storage (JsString "ABC") (JsString "") withReferral).1 = Some true
  /\ postReferralComplete storage emptyUser withReferral
     = (fail 400 "Missing referral code or user ID", withReferral)
  /\ (prop "referralCode" emptyCode <> JsUndefined /\ prop "userId" emptyCode <> JsUndefined)
  /\ (completeReferral storage (JsString "") (JsString "u-bob") withReferral).1 = Some false
  /\ postReferralComplete storage emptyCode withReferral
     = (fail 400 "Missing referral code or user ID", withReferral)
  /\ status (fail 400 "Missing referral code or user ID") <> 200
  /\ status (fail 400 "Missing referral code or user ID") <> 404.
Proof.
  cbv zeta. repeat split; try (vm_compute; reflexivity); vm_compute; discriminate.
Qed.

(** C9 for the check-in one minute after 23:59: the answer is 200 and the
    store went through the check-in update and one notification. *)
Lemma C9_checkin_then_notification_witness :
  let s := checkedIn t_2359 t_0000 in
  let answer := (postCheckin storage Calendar.utc t_0000 s).1 in
  let s' := (postCheckin storage Calendar.utc t_0000 s).2 in
  postCheckin storage Calendar.utc t_0000 s = (answer, s')
  /\ status answer = 200
  /\ exists u s1 u' s2 n,
       getDemoUser storage s = (Resolved u, s1)
       /\ alreadyCheckedIn Calendar.utc u t_0000 = false
       /\ updateUserCheckin storage (user_id u) s1 = (Some u', s2)
       /\ createNotification storage
            (mkInsertNotification "Daily Check-in Complete!"
               "You've earned 10 points! Come back tomorrow for more.")
            (user_id u) s2 = (Some n, s')
       /\ answer = json (JUser u').
Proof.
  intros s answer s'.
  assert (Hrun : postCheckin storage Calendar.utc t_0000 s = (answer, s'))
    by apply surjective_pairing.
  assert (H200 : status answer = 200) by (vm_compute; reflexivity).
  split; [exact Hrun|]. split; [exact H200|].
  exact (proj1 (C9_checkin_then_notification storage Calendar.utc t_0000 s answer s' Hrun)
           H200).
Defined.

(** C10 with the points update down: the answer is 400, and the message
    is in the store and is listed by [GET /messages]. *)
Lemma C10_message_kept_on_400_witness :
  let body := [("content", JsString "hi")] in
  let m := mkMessage "0" "u-bob" "hi" in
  let s2 := bumpId (setMessages [m] twoUsers) in
  getDemoUser storage_pointsDown twoUsers = (Resolved bob, twoUsers)
  /\ insertMessageSchema shapeSchemas body = Some (mkInsertMessage "hi")
  /\ createMessage storage_pointsDown (mkInsertMessage "hi") (user_id bob) twoUsers
     = (Some m, s2)
  /\ updateUserPoints storage_pointsDown (user_id bob) 1 s2 = (None, s2)
  /\ postMessages storage_pointsDown shapeSchemas body twoUsers
     = (fail 400 "Invalid message data", s2)
  /\ db_messages twoUsers = []
  /\ db_messages s2 = [m]
  /\ getMessages storage_pointsDown s2 = (json (JMessages [m]), s2).
Proof.
  intros body m s2.
  assert (Hcreate : createMessage storage_pointsDown (mkInsertMessage "hi") (user_id bob)
                      twoUsers = (Some m, s2)) by (vm_compute; reflexivity).
  split; [reflexivity|]. split; [reflexivity|]. split; [exact Hcreate|].
  split; [reflexivity|].
  split; [|split; [reflexivity | split; [reflexivity | vm_compute; reflexivity]]].
  exact (C10_message_kept_on_400 storage_pointsDown shapeSchemas body twoUsers bob twoUsers
           (mkInsertMessage "hi") m s2 s2 eq_refl eq_refl Hcreate eq_refl).
Defined.

(** C2 at [GET /user] with two users stored: the answer is the user
    created last, not the first one. *)
Lemma C2_resolved_user_is_last_witness :
  forUser storage shapeSchemas Calendar.utc GET_user = Some getUser_for
  /\ db_users twoUsers = [alice; bob]
  /\ route storage shapeSchemas Calendar.utc GET_user twoUsers = (json (JUser bob), twoUsers)
  /\ bob <> alice.
Proof.
  split; [reflexivity|]. split; [reflexivity|]. split; [|discriminate].
  destruct (C2_resolved_user_is_last storage shapeSchemas Calendar.utc
              GET_user getUser_for eq_refl twoUsers) as (u & Hlast & _ & Hroute).
  inversion Hlast; subst u. exact Hroute.
Defined.

(** C4 with two users stored: the message goes to [bob], whose points go
    from 3 to 4. *)
Lemma C4_message_awards_point_witness :
  let body := [("content", JsString "hi")] in
  insertMessageSchema shapeSchemas body = Some (mkInsertMessage "hi")
  /\ getDemoUser storage twoUsers = (Resolved bob, twoUsers)
  /\ exists m s' u' before,
       postMessages storage shapeSchemas body twoUsers = (json (JMessage m), s')
       /\ message_userId m = user_id bob
       /\ content m = "hi"
       /\ getDemoUser storage s' = (Resolved u', s')
       /\ user_id u' = user_id bob
       /\ points u' = points bob + 1
       /\ getMessages storage twoUsers = (json (JMessages before), twoUsers)
       /\ getMessages storage s' = (json (JMessages (before ++ [m])), s').
Proof.
  intros body. split; [reflexivity|]. split; [reflexivity|].
  exact (MemFacts.C4_message_awards_point shapeSchemas body (mkInsertMessage "hi")
           twoUsers bob twoUsers eq_refl eq_refl).
Defined.

(** [{theme: "dark"}] for a user without settings gives "dark" and the
    two defaults; [{notifications: true}] for a user with settings changes
    that field only. *)
Lemma patchSettings_examples :
  let dark := [("theme", JsString "dark")] in
  let notify := [("notifications", JsBool true)] in
  (patchSettings storage shapeSchemas dark twoUsers).1
  = json (JSettings (mkSettings "u-bob" "dark" true false))
  /\ db_settings withSettings !! "u-bob" = Some (mkSettings "u-bob" "dark" false true)
  /\ (patchSettings storage shapeSchemas notify withSettings).1
     = json (JSettings (mkSettings "u-bob" "dark" true true)).
Proof.
  intros dark notify.
  destruct (MemFacts.mem_patchSettings_fields shapeSchemas dark
              (mkPartialSettings (Some "dark") None None) twoUsers bob twoUsers
              eq_refl eq_refl) as (st1 & s1' & Hrun1 & _ & Hfields1).
  destruct (MemFacts.mem_patchSettings_fields shapeSchemas notify
              (mkPartialSettings None (Some true) None) withSettings bob withSettings
              eq_refl eq_refl) as (st2 & s2' & Hrun2 & _ & Hfields2).
  change (db_settings twoUsers !! user_id bob) with (@None Settings) in Hfields1.
  change (db_settings withSettings !! user_id bob) with (Some bobSettings) in Hfields2.
  cbn in Hfields1, Hfields2.
  destruct st1 as [uid1 th1 n1 e1], st2 as [uid2 th2 n2 e2]. cbn in Hfields1, Hfields2.
  destruct Hfields1 as (-> & -> & -> & ->), Hfields2 as (-> & -> & -> & ->).
  rewrite Hrun1, Hrun2. repeat split.
Qed.


(** C6 with two users and no settings stored. *)
Lemma C6_settings_defaults_witness :
  getDemoUser storage twoUsers = (Resolved bob, twoUsers)
  /\ db_settings twoUsers !! user_id bob = None
  /\ exists s',
       getSettings storage twoUsers
       = (json (JSettings (mkSettings "u-bob" "light" true false)), s')
       /\ db_settings s' !! "u-bob" = Some (mkSettings "u-bob" "light" true false)
       /\ getSettings storage s'
          = (json (JSettings (mkSettings "u-bob" "light" true false)), s').
Proof.
  split; [reflexivity|]. split; [reflexivity|].
  exact (MemFacts.C6_settings_defaults twoUsers bob twoUsers eq_refl eq_refl).
Defined.

(** C8 with two notifications stored: an unknown id is answered 404 and
    nothing changes; deleting "n-1" leaves the other notification. *)
Lemma C8_delete_notification_witness :
  deleteNotificationById storage "n-9" withNotifications
  = (fail 404 "Notification not found", withNotifications)
  /\ exists s',
       deleteNotificationById storage "n-1" withNotifications = (json JSuccess, s')
       /\ (forall n, n ∈ db_notifications s'
                     <-> n ∈ db_notifications withNotifications
                         /\ notification_id n <> "n-1")
       /\ getNotifications storage s' = (json (JNotifications [reminder]), s').
Proof.
  destruct (MemFacts.C8_delete_notification "n-9" withNotifications) as [Hunknown _].
  destruct (MemFacts.C8_delete_notification "n-1" withNotifications) as [_ Hknown].
  split.
  - apply Hunknown. intros n Hin.
    apply list_elem_of_In in Hin. cbn in Hin.
    destruct Hin as [<- | [<- | []]]; discriminate.
  - destruct Hknown as (s' & Hrun & Hkept & _).
    + exists welcome. split; [|reflexivity]. apply list_elem_of_here.
    + exists s'. split; [exact Hrun|]. split; [exact Hkept|].
      assert (Hs' : s' = (deleteNotificationById storage "n-1" withNotifications).2)
        by (rewrite Hrun; reflexivity).
      rewrite Hs'. vm_compute. reflexivity.
Defined.
End Instances.

(** ** More on the handlers, over any storage *)

(** Unfolds every handler down to its awaits. *)
Ltac unfold_handlers :=
  unfold getMessages, postMessages, postCheckin, getUser, getLeaderboardPage,
    getNotifications, postNotifications, patchNotificationRead, postMarkAllRead,
    deleteNotificationById, getSettings, patchSettings, getReferral,
    postReferralComplete,
    getMessages_try, postMessages_try, postCheckin_try, getUser_try,
    getLeaderboard_try, getNotifications_try, postNotifications_try,
    patchNotificationRead_try, postMarkAllRead_try, deleteNotificationById_try,
    getSettings_try, patchSettings_try, getReferral_try, postReferralComplete_try,
    getMessages_for, postMessages_for, postCheckin_for, getUser_for,
    getNotifications_for, postNotifications_for, postMarkAllRead_for,
    getSettings_for, patchSettings_for, getReferral_for in *.

Section Coverage.
Context {S : Type}.
Variable storage : Storage S.
Variable schemas : Schemas.
Variable localTZA : Z -> Z.

(** *** Which storage operations a handler can reach *)

Lemma getDemoUser_agrees (other : Storage S) s :
  agreesOn storage other OpGetAllUsers ->
  agreesOn storage other OpCreateUser ->
  getDemoUser storage s = getDemoUser other s.
Proof.
  cbn. intros Hall Hcreate. unfold getDemoUser. run. rewrite Hall.
  destruct (getAllUsers other s) as [[users|] s1]; [|reflexivity].
  destruct (length users =? 0)%nat; [rewrite Hcreate|]; reflexivity.
Qed.

(** X1: a handler's answer and the store it leaves depend on [storage]
    through the operations of its footprint only: two storages that agree
    on those operations are served alike, however they differ elsewhere.
    So the leaderboard, mark-as-read, delete and referral-completion
    handlers never resolve a user, only [POST /messages] touches
    [updateUserPoints], and no handler but the two settings handlers
    creates settings. *)
Theorem X1_footprint_sound (other : Storage S) (r : Request) :
  Forall (agreesOn storage other) (footprint r) ->
  forall s,
    route storage schemas localTZA r s = route other schemas localTZA r s.
Proof.
  intros H s.
  destruct r; cbn [footprint] in H;
    repeat match type of H with
      | Forall _ (_ :: _) =>
          let Hop := fresh "Hop" in
          apply Forall_cons in H; destruct H as [Hop H]; cbn in Hop
      end;
    clear H; cbn [route]; unfold_handlers; unfold tryCatch, bind, await, parse, ret, throw;
    try (rewrite (getDemoUser_agrees other s) by assumption;
         destruct (getDemoUser other s) as [[u|e] s1]; [|reflexivity]);
    repeat (repeat match goal with
              | Hop : forall _, _ |- _ => rewrite Hop
              end;
            match goal with
            | |- context [match ?x with _ => _ end] => destruct_innermost x
            end);
    reflexivity.
Qed.

(** *** Statuses and bodies *)

(** What a [try] block can answer by itself. *)
Lemma tryBlock_resolved_cases (r : Request) s answer s' :
  tryBlock storage schemas localTZA r s = (Resolved answer, s') ->
  (status answer = 200 /\ isErrorPayload (payload answer) = false)
  \/ (answer = fail 400 "Already checked in today" /\ exists today, r = POST_checkin today)
  \/ (answer = fail 400 "Missing referral code or user ID"
      /\ exists body, r = POST_referral_complete body)
  \/ (answer = fail 404 "Notification not found"
      /\ ((exists id,
             r = PATCH_notification_read id
             /\ markNotificationAsRead storage id s = (Some None, s'))
          \/ (exists id,
                r = DELETE_notification id
                /\ deleteNotification storage id s = (Some false, s'))))
  \/ (answer = fail 404 "Invalid referral code"
      /\ exists body,
           r = POST_referral_complete body
           /\ completeReferral storage (prop "referralCode" body) (prop "userId" body) s
              = (Some false, s')).
Proof.
  destruct r; cbn [tryBlock]; unfold_handlers; run;
    repeat match goal with
      | |- context [getDemoUser storage s] =>
          destruct (getDemoUser storage s) as [[?u|?e0] ?s1]
      | |- context [match ?x with _ => _ end] => destruct_innermost x
      end;
    intros H; inversion H; subst; clear H;
    repeat match goal with
      | Hb : negb ?b = _ |- _ => destruct b; cbn in Hb; try discriminate Hb; clear Hb
      end;
    first [ left; split; reflexivity
          | right; left; split; [reflexivity | eauto]
          | right; right; left; split; [reflexivity | eauto]
          | right; right; right; left; split; [reflexivity | eauto 6]
          | right; right; right; right; split; [reflexivity | eauto] ].
Qed.

(** X2: every answer has status 200, 400, 404 or 500.  A handler that
    validates a body answers 200 or 400 only.  A handler that validates
    none answers 500 exactly when one of its storage operations rejected.
    A 404 comes only from the mark-as-read, delete and
    referral-completion handlers, after storage reported no matching
    record. *)
Theorem X2_status_taxonomy (r : Request) s :
  let answer := (route storage schemas localTZA r s).1 in
  let tried := (tryBlock storage schemas localTZA r s).1 in
  (status answer = 200 \/ status answer = 400
   \/ status answer = 404 \/ status answer = 500)
  /\ (validatesBody r = true -> status answer = 200 \/ status answer = 400)
  /\ (status answer = 500 <-> validatesBody r = false /\ tried = Rejected StorageFailure)
  /\ (status answer = 404 ->
      (exists id s',
         r = PATCH_notification_read id
         /\ markNotificationAsRead storage id s = (Some None, s'))
      \/ (exists id s',
            r = DELETE_notification id
            /\ deleteNotification storage id s = (Some false, s'))
      \/ (exists body s',
            r = POST_referral_complete body
            /\ completeReferral storage (prop "referralCode" body) (prop "userId" body) s
               = (Some false, s'))).
Proof.
  intros answer tried. subst answer tried.
  rewrite route_tryCatch. unfold tryCatch.
  destruct (tryBlock storage schemas localTZA r s) as [[answer|e] s'] eqn:Htry; cbn [fst].
  - destruct (tryBlock_resolved_cases r s answer s' Htry)
      as [[H200 _] | [[-> Hr] | [[-> Hr] | [[-> Hr] | [-> Hr]]]]].
    + rewrite H200. repeat split; auto; try discriminate.
      intros [_ H]; discriminate.
    + repeat split; auto; try discriminate. intros [_ H]; discriminate.
    + repeat split; auto; try discriminate. intros [_ H]; discriminate.
    + repeat split; auto; try discriminate.
      * destruct Hr as [(id & -> & _) | (id & -> & _)]; discriminate.
      * intros [_ H]; discriminate.
      * intros _. destruct Hr as [(id & Hr) | (id & Hr)]; eauto 6.
    + repeat split; auto; try discriminate.
      * destruct Hr as (body & -> & _); discriminate.
      * intros [_ H]; discriminate.
      * intros _. destruct Hr as (body & Hr). eauto 8.
  - split; [destruct r; cbn; auto|].
    split; [destruct r; cbn; auto; discriminate|].
    split.
    + split.
      * intros H500.
        assert (Hval : validatesBody r = false) by (destruct r; cbn in *; congruence).
        split; [exact Hval|].
        destruct (tryBlock_rejected storage schemas localTZA r s e s' Htry)
          as [-> | [_ Hrej]]; [reflexivity|].
        destruct r; cbn in Hval, Hrej; discriminate.
      * intros [Hval _]. destruct r; cbn in *; congruence.
    + destruct r; cbn; discriminate.
Qed.

(** X3: an answer carries an [{ error: ... }] body exactly when its
    status is not 200; a 200 answer never carries one. *)
Theorem X3_error_body_iff_not_200 (r : Request) s :
  let answer := (route storage schemas localTZA r s).1 in
  isErrorPayload (payload answer) = negb (status answer =? 200).
Proof.
  intros answer. subst answer.
  rewrite route_tryCatch. unfold tryCatch.
  destruct (tryBlock storage schemas localTZA r s) as [[answer|e] s'] eqn:Htry; cbn [fst].
  - destruct (tryBlock_resolved_cases r s answer s' Htry)
      as [[H200 Hbody] | [[-> _] | [[-> _] | [[-> _] | [-> _]]]]]; try reflexivity.
    rewrite H200, Hbody. reflexivity.
  - destruct r; reflexivity.
Qed.

(** *** Validation comes after user resolution *)

(** X4: a request whose body the schema rejects is answered by the catch
    block after [getDemoUser] has run and before any other storage call:
    the store is left exactly as [getDemoUser] left it.  On a store
    without users the demo user is therefore created although the request
    is rejected. *)
Theorem X4_rejected_body_after_user (r : Request) s :
  schemaRejects schemas r = true ->
  route storage schemas localTZA r s = (catchResponse r, (getDemoUser storage s).2).
Proof.
  destruct r; cbn [schemaRejects]; try discriminate; intros Hrej;
    cbn [route catchResponse]; unfold_handlers; run;
    destruct (getDemoUser storage s) as [[u|e] s1]; try reflexivity;
    match type of Hrej with
    | rejected ?x = true => destruct x; [discriminate | reflexivity]
    end.
Qed.

(** *** Leaderboard *)

(** X5: [GET /leaderboard] makes one storage call, for the requested page
    with page size 10; an absent or unparsable page is served as page 0,
    a negative page is passed on as it is.  The answer is the list storage
    returned, or 500 when the call rejects; the store is what that call
    left. *)
Theorem X5_leaderboard_paging (parsedPage : option Z) s :
  getLeaderboardPage storage parsedPage s
  = match getLeaderboard storage (default 0 parsedPage) 10 s with
    | (Some users, s') => (json (JUsers users), s')
    | (None, s') => (fail 500 "Failed to fetch leaderboard", s')
    end.
Proof.
  unfold getLeaderboardPage, getLeaderboard_try, pageOr0. run.
  assert (Hpage : match parsedPage with
                  | Some n => if n =? 0 then 0 else n
                  | None => 0
                  end = default 0 parsedPage).
  { destruct parsedPage as [n|]; [|reflexivity]. cbn.
    destruct (Z.eqb_spec n 0); congruence. }
  rewrite Hpage.
  destruct (getLeaderboard storage (default 0 parsedPage) 10 s) as [[users|] s'];
    reflexivity.
Qed.

(** *** Check-in that fails half way *)

(** X6: when the check-in update resolves but the notification write
    rejects, [POST /checkin] answers 500 and the store keeps the check-in:
    nothing undoes it.  If the store then shows the user as checked in at
    an instant of the same local day as a retry, the retry is answered
    400 "Already checked in today". *)
Theorem X6_checkin_kept_on_500 (today : Z) s u s1 u' s2 s3 :
  getDemoUser storage s = (Resolved u, s1) ->
  alreadyCheckedIn localTZA u today = false ->
  updateUserCheckin storage (user_id u) s1 = (Some u', s2) ->
  createNotification storage checkinNotification (user_id u) s2 = (None, s3) ->
  postCheckin storage localTZA today s = (fail 500 "Failed to check in", s3)
  /\ forall again stored s4 t,
       getDemoUser storage s3 = (Resolved stored, s4) ->
       lastCheckin stored = Some t ->
       Calendar.localDay localTZA t = Calendar.localDay localTZA again ->
       postCheckin storage localTZA again s3
       = (fail 400 "Already checked in today", s4).
Proof.
  intros Hu Hguard Hup Hcreate. split.
  - rewrite (postCheckin_resolved storage localTZA today s u s1 Hu), Hguard, Hup, Hcreate.
    reflexivity.
  - intros again stored s4 t Hstored Hlast Hday.
    rewrite (postCheckin_resolved storage localTZA again s3 stored s4 Hstored).
    unfold alreadyCheckedIn. rewrite Hlast.
    rewrite (proj2 (CalendarFacts.isSameDay_localDay localTZA t again) Hday).
    reflexivity.
Qed.

(** *** Settings *)

(** X7: the record that [PATCH /settings] creates never has an empty
    theme; a toggle supplied as false is kept and not replaced by its
    default; and building a record from the fields of a built record
    gives the same record. *)
Theorem X7_created_settings (parsed : PartialSettings) :
  let created := settingsToCreate parsed in
  is_theme created <> ""
  /\ (forall b, ps_notifications parsed = Some b -> is_notifications created = b)
  /\ (forall b, ps_emailNotifications parsed = Some b -> is_emailNotifications created = b)
  /\ settingsToCreate
       (mkPartialSettings (Some (is_theme created)) (Some (is_notifications created))
          (Some (is_emailNotifications created)))
     = created.
Proof.
  intros created. subst created. unfold settingsToCreate, themeOrLight, nullish. cbn.
  destruct parsed as [[t|] n e]; cbn.
  - destruct (String.eqb_spec t "") as [Et|Et]; cbn.
    + repeat split; [discriminate | intros b -> | intros b ->]; reflexivity.
    + destruct (String.eqb_spec t "") as [Et'|_]; [contradiction|].
      repeat split; [exact Et | intros b -> | intros b ->]; reflexivity.
  - repeat split; [discriminate | intros b -> | intros b ->]; reflexivity.
Qed.

(** X11: with a settings record present, neither settings handler
    creates one.  [GET /settings] answers the stored record and leaves the
    store as the read left it.  [PATCH /settings] hands the parsed fields
    to [updateSettings] exactly as parsed, without applying any default,
    and answers what it returns, or 400 when it rejects. *)
Theorem X11_settings_present (body : Body) parsed s u s1 st s2 :
  getDemoUser storage s = (Resolved u, s1) ->
  getSettingsByUserId storage (user_id u) s1 = (Some (Some st), s2) ->
  insertSettingsSchema_partial schemas body = Some parsed ->
  getSettings storage s = (json (JSettings st), s2)
  /\ patchSettings storage schemas body s
     = match updateSettings storage (user_id u) parsed s2 with
       | (Some updated, s3) => (json (JSettings updated), s3)
       | (None, s3) => (fail 400 "Invalid settings data", s3)
       end.
Proof.
  intros Hu Hget Hparse. split.
  - unfold getSettings, getSettings_try.
    rewrite (tryCatch_bind_resolved _ _ _ _ _ _ Hu).
    unfold getSettings_for. run. rewrite Hget. reflexivity.
  - unfold patchSettings, patchSettings_try.
    rewrite (tryCatch_bind_resolved _ _ _ _ _ _ Hu).
    unfold patchSettings_for. rewrite Hparse. run. rewrite Hget.
    destruct (updateSettings storage (user_id u) parsed s2) as [[updated|] s3];
      reflexivity.
Qed.

(** *** Notifications addressed by identifier *)

(** X10: [PATCH /notifications/:id/read] and [DELETE /notifications/:id]
    make one storage call each and never look at the users.  Marking
    answers 200 exactly when storage returned a notification, 404 exactly
    when it returned none and 500 exactly when it rejected; deleting
    answers 200 exactly when storage reported a deletion, 404 exactly when
    it reported none and 500 exactly when it rejected.  The store is what
    the call left. *)
Theorem X10_notification_by_id (id : string) s :
  let marked := markNotificationAsRead storage id s in
  let deleted := deleteNotification storage id s in
  patchNotificationRead storage id s
  = (match marked.1 with
     | Some (Some n) => json (JNotification n)
     | Some None => fail 404 "Notification not found"
     | None => fail 500 "Failed to mark notification as read"
     end, marked.2)
  /\ deleteNotificationById storage id s
     = (match deleted.1 with
        | Some true => json JSuccess
        | Some false => fail 404 "Notification not found"
        | None => fail 500 "Failed to delete notification"
        end, deleted.2)
  /\ (status (patchNotificationRead storage id s).1 = 404 <-> marked.1 = Some None)
  /\ (status (patchNotificationRead storage id s).1 = 500 <-> marked.1 = None)
  /\ (status (deleteNotificationById storage id s).1 = 404 <-> deleted.1 = Some false)
  /\ (status (deleteNotificationById storage id s).1 = 500 <-> deleted.1 = None).
Proof.
  intros marked deleted. subst marked deleted.
  unfold patchNotificationRead, patchNotificationRead_try,
    deleteNotificationById, deleteNotificationById_try. run.
  destruct (markNotificationAsRead storage id s) as [[[n|]|] s1];
    destruct (deleteNotification storage id s) as [[[|]|] s2]; cbn;
    repeat split; intros; congruence.
Qed.

(** *** User info *)

(** X9: [GET /user] answers with the user record exactly as storage
    returned it, the stored credential included: no field is removed or
    masked.  On a store without users that record is the one [createUser]
    returned for the demo credentials. *)
Theorem X9_user_sent_whole s :
  (forall u s1,
     getDemoUser storage s = (Resolved u, s1) ->
     getUser storage s = (json (JUser u), s1)
     /\ (forall sent, payload (getUser storage s).1 = JUser sent ->
                      password sent = password u))
  /\ (forall s1 u s2,
        getAllUsers storage s = (Some [], s1) ->
        createUser storage (mkInsertUser "DemoUser" "demo") s1 = (Some u, s2) ->
        getUser storage s = (json (JUser u), s2)).
Proof.
  assert (Hsent : forall u s1,
            getDemoUser storage s = (Resolved u, s1) ->
            getUser storage s = (json (JUser u), s1)).
  { intros u s1 Hu. unfold getUser, getUser_try.
    rewrite (tryCatch_bind_resolved _ _ _ _ _ _ Hu). reflexivity. }
  split.
  - intros u s1 Hu. split; [apply Hsent, Hu|].
    rewrite (Hsent u s1 Hu). cbn. intros sent E. inversion E. reflexivity.
  - intros s1 u s2 Hall Hcreate. apply Hsent.
    pose proof (getDemoUser_cases storage s) as H. rewrite Hall in H. cbn in H.
    destruct H as [_ ->]. apply await_some. exact Hcreate.
Qed.

(** *** When user resolution fails *)

(** X12: [getDemoUser] rejects only by passing on a storage failure:
    exactly when [getAllUsers] rejects, or returns an empty list and
    [createUser] rejects.  On a non-empty list it always resolves: the
    index [users.length - 1] is never out of range. *)
Theorem X12_getDemoUser_rejects s e s' :
  getDemoUser storage s = (Rejected e, s')
  <-> e = StorageFailure
      /\ (getAllUsers storage s = (None, s')
          \/ exists s1,
               getAllUsers storage s = (Some [], s1)
               /\ createUser storage (mkInsertUser "DemoUser" "demo") s1 = (None, s')).
Proof.
  pose proof (getDemoUser_cases storage s) as H.
  destruct (getAllUsers storage s) as [[users|] s1].
  - destruct (last users) as [u|] eqn:Hlast.
    + rewrite H. split; [discriminate|].
      intros [_ [E | (s2 & E & _)]]; [discriminate|].
      inversion E; subst. discriminate.
    + destruct H as [-> ->]. split.
      * intros Hrej. destruct (await_rejected _ _ _ _ Hrej) as [-> Hcreate].
        split; [reflexivity|]. right. exists s1. split; [reflexivity | exact Hcreate].
      * intros [-> [E | (s2 & E & Hcreate)]]; [discriminate|].
        inversion E; subst. apply await_none. exact Hcreate.
  - rewrite H. split.
    + intros E. inversion E; subst. auto.
    + intros [-> [E | (s2 & E & _)]]; [inversion E; reflexivity | discriminate].
Qed.
End Coverage.

(** ** More on calendar dates *)

Section SameDay.
Variable localTZA : Z -> Z.

(** X8: [isSameDay] is reflexive, symmetric and transitive, so it takes
    no account of which instant comes first: a last check-in dated later
    the same day blocks as well.  On a host with a fixed offset, two
    instants it relates are less than 24 hours apart. *)
Theorem X8_isSameDay_equivalence :
  (forall a, Calendar.isSameDay localTZA a a = true)
  /\ (forall a b, Calendar.isSameDay localTZA a b = Calendar.isSameDay localTZA b a)
  /\ (forall a b c,
        Calendar.isSameDay localTZA a b = true ->
        Calendar.isSameDay localTZA b c = true ->
        Calendar.isSameDay localTZA a c = true)
  /\ (forall offset a b,
        Calendar.isSameDay (fun _ => offset) a b = true ->
        - Calendar.msPerDay < b - a < Calendar.msPerDay).
Proof.
  split; [|split; [|split]].
  - intros a. apply CalendarFacts.isSameDay_localDay. reflexivity.
  - intros a b. unfold Calendar.isSameDay.
    rewrite (Z.eqb_sym (Calendar.getDate localTZA a)),
      (Z.eqb_sym (Calendar.getMonth localTZA a)),
      (Z.eqb_sym (Calendar.getFullYear localTZA a)).
    reflexivity.
  - intros a b c. rewrite !CalendarFacts.isSameDay_localDay. congruence.
  - intros offset a b. rewrite CalendarFacts.isSameDay_localDay.
    unfold Calendar.localDay, Calendar.msPerDay.
    intros H. Z.div_mod_to_equations. lia.
Qed.
End SameDay.

(** X13: whether the check-in guard relates two instants depends on the
    host's time zone, not on the instants alone: for any two distinct
    instants less than 24 hours apart there is a fixed offset within 12
    hours of UTC under which they are the same day, and another under
    which they are not. *)
Theorem X13_same_day_depends_on_host (a b : Z) :
  0 < b - a < Calendar.msPerDay ->
  (exists offset,
     - (Calendar.msPerDay / 2) <= offset <= Calendar.msPerDay / 2
     /\ Calendar.isSameDay (fun _ => offset) a b = true)
  /\ (exists offset,
        - (Calendar.msPerDay / 2) <= offset <= Calendar.msPerDay / 2
        /\ Calendar.isSameDay (fun _ => offset) a b = false).
Proof.
  unfold Calendar.msPerDay. intros Hab.
  pose (shift := fun t : Z =>
                   if t mod 86400000 <=? 43200000
                   then - (t mod 86400000) else 86400000 - t mod 86400000).
  assert (Hshift : forall t,
            -43200000 <= shift t <= 43200000 /\ (t + shift t) mod 86400000 = 0).
  { intros t. unfold shift.
    destruct (Z.leb_spec (t mod 86400000) 43200000);
      split; Z.div_mod_to_equations; lia. }
  split.
  - exists (shift a). destruct (Hshift a) as [Hrange Hmid].
    split; [change (86400000 / 2) with 43200000; lia|].
    apply CalendarFacts.isSameDay_localDay.
    unfold Calendar.localDay, Calendar.msPerDay.
    Z.div_mod_to_equations. lia.
  - exists (shift b). destruct (Hshift b) as [Hrange Hmid].
    split; [change (86400000 / 2) with 43200000; lia|].
    apply not_true_is_false. rewrite CalendarFacts.isSameDay_localDay.
    unfold Calendar.localDay, Calendar.msPerDay.
    Z.div_mod_to_equations. lia.
Qed.

(** ** More worked instances *)

Module CoverageInstances.
Import MemStorage Samples.

(** X1 for the check-in: the store whose points update is down agrees
    with the working one on the check-in's footprint, so check-ins are
    served alike on both. *)
Lemma X1_footprint_sound_witness :
  Forall (agreesOn storage storage_pointsDown) (footprint (POST_checkin t_0000))
  /\ route storage shapeSchemas Calendar.utc (POST_checkin t_0000)
       (checkedIn t_2359 t_0000)
     = route storage_pointsDown shapeSchemas Calendar.utc (POST_checkin t_0000)
         (checkedIn t_2359 t_0000).
Proof.
  assert (Hagree : Forall (agreesOn storage storage_pointsDown)
                     (footprint (POST_checkin t_0000)))
    by (repeat constructor).
  split; [exact Hagree|].
  exact (X1_footprint_sound storage shapeSchemas Calendar.utc storage_pointsDown
           (POST_checkin t_0000) Hagree (checkedIn t_2359 t_0000)).
Defined.

(** X4 on the empty store: a message without content is answered 400,
    and the store now holds the demo user and no message. *)
Lemma X4_rejected_body_after_user_witness :
  schemaRejects shapeSchemas (POST_messages []) = true
  /\ route storage shapeSchemas Calendar.utc (POST_messages []) empty
     = (fail 400 "Invalid message data", (getDemoUser storage empty).2)
  /\ db_users (getDemoUser storage empty).2 = [mkUser "0" "DemoUser" "demo" 0 None]
  /\ db_messages (getDemoUser storage empty).2 = [].
Proof.
  split; [reflexivity|].
  split; [|split; vm_compute; reflexivity].
  exact (X4_rejected_body_after_user storage shapeSchemas Calendar.utc (POST_messages [])
           empty eq_refl).
Defined.

(** X6 with the notification write down: the check-in at 00:00 is
    answered 500, the user is stamped all the same, and the retry at 00:01
    is refused. *)
Lemma X6_checkin_kept_on_500_witness :
  let s := checkedIn t_2359 t_0000 in
  let stamped := checkedInAt t_0000 (carol t_2359) in
  let s2 := setUsers [stamped] s in
  getDemoUser storage_notificationsDown s = (Resolved (carol t_2359), s)
  /\ alreadyCheckedIn Calendar.utc (carol t_2359) t_0000 = false
  /\ updateUserCheckin storage_notificationsDown "u-carol" s = (Some stamped, s2)
  /\ createNotification storage_notificationsDown checkinNotification "u-carol" s2
     = (None, s2)
  /\ postCheckin storage_notificationsDown Calendar.utc t_0000 s
     = (fail 500 "Failed to check in", s2)
  /\ postCheckin storage_notificationsDown Calendar.utc t_0001 s2
     = (fail 400 "Already checked in today", s2).
Proof.
  intros s stamped s2.
  assert (Hu : getDemoUser storage_notificationsDown s = (Resolved (carol t_2359), s))
    by reflexivity.
  assert (Hguard : alreadyCheckedIn Calendar.utc (carol t_2359) t_0000 = false)
    by (vm_compute; reflexivity).
  assert (Hup : updateUserCheckin storage_notificationsDown (user_id (carol t_2359)) s
                = (Some stamped, s2)) by (vm_compute; reflexivity).
  assert (Hcreate : createNotification storage_notificationsDown checkinNotification
                      (user_id (carol t_2359)) s2 = (None, s2)) by reflexivity.
  destruct (X6_checkin_kept_on_500 storage_notificationsDown Calendar.utc t_0000
              s (carol t_2359) s stamped s2 s2 Hu Hguard Hup Hcreate)
    as [Hfirst Hretry].
  split; [exact Hu|]. split; [exact Hguard|]. split; [exact Hup|].
  split; [exact Hcreate|]. split; [exact Hfirst|].
  apply (Hretry t_0001 stamped s2 t_0000); [reflexivity | reflexivity |].
  vm_compute. reflexivity.
Defined.

(** X11 for a user with settings: the record is read back, and a patch of
    one toggle is handed to the update as it is. *)
Lemma X11_settings_present_witness :
  let body := [("notifications", JsBool true)] in
  let parsed := mkPartialSettings None (Some true) None in
  getDemoUser storage withSettings = (Resolved bob, withSettings)
  /\ getSettingsByUserId storage (user_id bob) withSettings
     = (Some (Some bobSettings), withSettings)
  /\ insertSettingsSchema_partial shapeSchemas body = Some parsed
  /\ getSettings storage withSettings = (json (JSettings bobSettings), withSettings)
  /\ patchSettings storage shapeSchemas body withSettings
     = match updateSettings storage (user_id bob) parsed withSettings with
       | (Some updated, s3) => (json (JSettings updated), s3)
       | (None, s3) => (fail 400 "Invalid settings data", s3)
       end.
Proof.
  intros body parsed.
  split; [reflexivity|]. split; [reflexivity|]. split; [reflexivity|].
  exact (X11_settings_present storage shapeSchemas body parsed withSettings bob
           withSettings bobSettings withSettings eq_refl eq_refl eq_refl).
Defined.

(** X13 for 23:30 and 00:30 UTC: different days on a UTC host, the same
    day one hour to the west. *)
Lemma X13_same_day_depends_on_host_witness :
  let a := t_2359 - 29 * Calendar.msPerMinute in
  let b := t_0000 + 30 * Calendar.msPerMinute in
  0 < b - a < Calendar.msPerDay
  /\ Calendar.isSameDay Calendar.utc a b = false
  /\ Calendar.isSameDay (fun _ => - (60 * Calendar.msPerMinute)) a b = true
  /\ (exists offset,
        - (Calendar.msPerDay / 2) <= offset <= Calendar.msPerDay / 2
        /\ Calendar.isSameDay (fun _ => offset) a b = true).
Proof.
  intros a b.
  assert (Hab : 0 < b - a < Calendar.msPerDay) by (vm_compute; split; reflexivity).
  split; [exact Hab|]. split; [vm_compute; reflexivity|].
  split; [vm_compute; reflexivity|].
  exact (proj1 (X13_same_day_depends_on_host a b Hab)).
Defined.
End CoverageInstances.
